(** * SSR Styles storefront backend (src/index.js)

    A shallow embedding of the Express request handlers of [src/index.js]:
    the product catalog, account registration and login, the bearer-token
    middleware and the per-account cart, over an explicit model of the two
    MongoDB collections.

    Conventions.
    - A handler is a function from the request, the ambient inputs it reads
      (clock, random salt, generated [_id]) and the database to a response
      and the database after the request.  Requests are handled one at a
      time; storage failures other than the unique-index violations written
      out below are not modelled.
    - JavaScript numbers that hold counts, ids and seconds are integers [Z].
    - [cartData] is a plain object used as a map from item id to count: a
      [gmap Z Z], the key [k] standing for the property name [String(k)].  *)

From Stdlib Require Import ZArith Lia.
From stdpp Require Import gmap strings list fin_maps sorting.

Local Open Scope string_scope.
Local Open Scope Z_scope.

(** ** Documents and collections *)

(** Mongoose generates an [ObjectId] for every new document. *)
Definition ObjectId := N.

(** [productSchema], lines 61-94. *)
Record Product := mkProduct {
  p_id : Z;
  p_name : string;
  p_image : string;
  p_category : string;
  p_new_price : Z;
  p_old_price : Z;
  p_date : Z;
  p_available : bool
}.

(** [userSchema], lines 155-174. *)
Record User := mkUser {
  u_id : ObjectId;
  u_name : string;
  u_email : string;
  u_password : string;
  u_cartData : gmap Z Z;
  u_date : Z
}.

(** The collections, each in insertion order (the order [find({})] returns). *)
Record Db := mkDb {
  products : list Product;
  users : list User
}.

Definition empty_db : Db := mkDb [] [].

(** ** Responses *)

Inductive Token_claims := mkClaims {
  userId : ObjectId;
  iat : Z;
  exp : Z
}.

Record Token := mkToken {
  claims : Token_claims;
  signature : string
}.

(** The value of the [auth-token] header: a string that decodes to a token,
    or any other string. *)
Inductive TokenString :=
  | Encoded (t : Token)
  | Garbage (s : string).

Inductive Json :=
  | JSuccessToken (token : Token) (cartData : gmap Z Z)
      (* {success: true, token, cartData} *)
  | JSuccessName (name : option string)   (* {success: true, name} *)
  | JSuccess                              (* {success: true} *)
  | JFailure (error : string)             (* {success: false, error} *)
  | JErrors (errors : string)             (* {errors} *)
  | JCart (cartData : gmap Z Z)
  | JProducts (ps : list Product).

Inductive Body :=
  | BJson (j : Json)
  | BText (s : string).

Record Response := mkResponse {
  status : Z;
  body : Body
}.

(** ** Process configuration, lines 10 and 26-27 *)

Record ProcessEnv := mkEnv {
  JWT_SECRET : option string;
  ENCRYPTION_SECRET : option string
}.

(* Use secrets from .env for encryption and JWT *)
Definition jwtSecret (env : ProcessEnv) : option string := JWT_SECRET env.
Definition encryptionSecret (env : ProcessEnv) : option string :=
  ENCRYPTION_SECRET env.

(** ** Collection operations (Mongoose model methods) *)

(** [User.findOne({ email })]: the first matching document. *)
Definition User_findOne_email (email : string) (db : Db) : option User :=
  find (fun u => bool_decide (u_email u = email)) (users db).

(** [User.findOne({ _id })]. *)
Definition User_findOne_id (uid : ObjectId) (db : Db) : option User :=
  find (fun u => bool_decide (u_id u = uid)) (users db).

(** [newUser.save()]: the insert is refused (the promise rejects) when the
    primary key or the unique [email] index already holds the value. *)
Definition User_save (u : User) (db : Db) : option Db :=
  if existsb (fun v => bool_decide (u_id v = u_id u) ||
                       bool_decide (u_email v = u_email u)) (users db)
  then None
  else Some (mkDb (products db) (users db ++ [u])).

Definition set_cartData (cart : gmap Z Z) (u : User) : User :=
  mkUser (u_id u) (u_name u) (u_email u) (u_password u) cart (u_date u).

Fixpoint update_first (uid : ObjectId) (cart : gmap Z Z) (us : list User)
  : list User :=
  match us with
  | [] => []
  | u :: rest =>
      if bool_decide (u_id u = uid) then set_cartData cart u :: rest
      else u :: update_first uid cart rest
  end.

(** [User.findOneAndUpdate({ _id }, { cartData })]. *)
Definition User_findOneAndUpdate (uid : ObjectId) (cart : gmap Z Z) (db : Db)
  : Db :=
  mkDb (products db) (update_first uid cart (users db)).

(** [Product.find({})]. *)
Definition Product_find (db : Db) : list Product := products db.

(** [newProduct.save()]. *)
Definition Product_save (p : Product) (db : Db) : Db :=
  mkDb (products db ++ [p]) (users db).

Fixpoint delete_first (pid : Z) (ps : list Product) : list Product :=
  match ps with
  | [] => []
  | p :: rest =>
      if bool_decide (p_id p = pid) then rest else p :: delete_first pid rest
  end.

(** [Product.findOneAndDelete({ id })]. *)
Definition Product_findOneAndDelete (pid : Z) (db : Db) : Db :=
  mkDb (delete_first pid (products db)) (users db).

(** ** Requests *)

(** The random salt a call of [CryptoJS.AES.encrypt] draws. *)
Definition Salt := N.

(** The fields of [req.body] the product schema requires; [None] for a
    field that is missing or does not cast to the schema type. *)
Record ProductBody := mkProductBody {
  b_name : option string;
  b_image : option string;
  b_category : option string;
  b_new_price : option Z;
  b_old_price : option Z
}.

(** One constructor per route, with the ambient inputs the handler reads:
    the clock, the salt and the generated [_id]. *)
Inductive Request :=
  | GetProducts
  | AddProduct (now : Z) (b : ProductBody)
  | RemoveProduct (productId : Z)
  | Signup (now : Z) (salt : Salt) (oid : ObjectId)
      (name email password : string)
  | Login (now : Z) (email password : string)
  | AddToCart (now : Z) (header : option TokenString) (itemId : Z)
  | RemoveFromCart (now : Z) (header : option TokenString) (itemId : Z)
  | GetCart (now : Z) (header : option TokenString).

(** ** A stand-in for the cryptographic libraries

  The handlers below are parametric in the cipher and in the signature
  function.  This stand-in instantiates them in closed examples: the
  "ciphertext" is the passphrase followed by the message, and the
  "signature" is the signing key, so both show which key was used. *)

Module Standin.

Definition encrypt (message key : string) (_ : Salt) : string :=
  key +:+ message.

Fixpoint strip (key s : string) : option string :=
  match key, s with
  | EmptyString, _ => Some s
  | String a key', String b s' =>
      if bool_decide (a = b) then strip key' s' else None
  | String _ _, EmptyString => None
  end.

Definition decrypt (stored key : string) : option string := strip key stored.

Definition sign (key : string) (_ : Token_claims) : string := key.

End Standin.

(** ** Sample data for the closed examples *)

Module Sample.

Definition cart : gmap Z Z := <[3 := 2]> (<[5 := 0]> ∅).

(** An account as /signup stores it under the stand-in cipher. *)
Definition asha : User :=
  mkUser 7%N "Asha" "asha@example.com"
    (Standin.encrypt "hunter2" "Secret key" 0%N) cart 1000.

Definition db : Db := mkDb [] [asha].

Definition shirt : ProductBody :=
  mkProductBody (Some "Shirt") (Some "/images/product_1.png") (Some "men")
    (Some 40) (Some 60).

(** Three inserts, then the deletion of the second product. *)
Definition catalog_requests : list Request :=
  [AddProduct 10 shirt; AddProduct 11 shirt; AddProduct 12 shirt;
   RemoveProduct 2].

(** A configuration whose secrets differ from every literal in the code. *)
Definition env : ProcessEnv :=
  mkEnv (Some "jwt-from-dotenv") (Some "enc-from-dotenv").

(** The token /signup issues for account 7 at time 1000 under the stand-in
    signature, and the header that carries it. *)
Definition token : Token :=
  mkToken (mkClaims 7%N 1000 4600)
    (Standin.sign "secret" (mkClaims 7%N 1000 4600)).

Definition header : option TokenString := Some (Encoded token).

(** A signup, three cart requests with its token, and a second signup. *)
Definition session : list Request :=
  [Signup 1000 0%N 7%N "Asha" "asha@example.com" "hunter2";
   AddToCart 1200 header 3; AddToCart 1300 header 3;
   RemoveFromCart 1400 header 3;
   Signup 1500 1%N 8%N "Bo" "bo@example.com" "correct horse"].

Definition blouse : ProductBody :=
  mkProductBody (Some "Blouse") (Some "/images/product_2.png") (Some "women")
    (Some 35) (Some 50).

(** Ten inserts, six of them of category "women" (ids 1, 3, 4, 6, 7, 10). *)
Definition boutique : list Request :=
  [AddProduct 10 blouse; AddProduct 11 shirt; AddProduct 12 blouse;
   AddProduct 13 blouse; AddProduct 14 shirt; AddProduct 15 blouse;
   AddProduct 16 blouse; AddProduct 17 shirt; AddProduct 18 shirt;
   AddProduct 19 blouse].

End Sample.

(** ** The server *)

Section Server.

(** Modelled from the spec: [CryptoJS.AES] (package crypto-js) is not under
    src/.  [AES_encrypt m k salt] stands for
    [CryptoJS.AES.encrypt(m, k).toString()] with the random salt the call
    draws, [AES_decrypt st k] for
    [CryptoJS.AES.decrypt(st, k).toString(CryptoJS.enc.Utf8)], [None] when
    the call throws. *)
Variable AES_encrypt : string -> string -> Salt -> string.
Variable AES_decrypt : string -> string -> option string.

(** Modelled from the spec: the contract section 4.1 gives the cipher, and
    all it says of it: a symmetric reversible transform under one shared
    key, [recover(obfuscate(p, key), key) == p]. *)
Definition AES_reversible : Prop :=
  forall (plaintext key : string) (salt : Salt),
    AES_decrypt (AES_encrypt plaintext key salt) key = Some plaintext.

(** The signature algorithm of the token library (HS256 by default). *)
Variable HS256 : string -> Token_claims -> string.

(** The two ways [jwt.verify] fails on a token that was supplied. *)
Inductive VerifyError := JsonWebTokenError | TokenExpiredError.

(** Modelled from the spec: [jwt.sign] (package jsonwebtoken) is not under
    src/.  Section 4.2: a signed token binding the account identifier,
    expiring exactly [expiresIn] after issuance.  Time is in seconds. *)
Definition jwt_sign (uid : ObjectId) (key : string) (expiresIn now : Z)
  : Token :=
  let c := mkClaims uid now (now + expiresIn) in
  mkToken c (HS256 key c).

(** Modelled from the spec: [jwt.verify] (package jsonwebtoken) is not under
    src/.  Section 4.2: verification fails as Invalid when the token is
    malformed or the signature does not validate, and as Expired once past
    the expiry boundary; otherwise it returns the payload. *)
Definition jwt_verify (tok : TokenString) (key : string) (now : Z)
  : VerifyError + Token_claims :=
  match tok with
  | Garbage _ => inl JsonWebTokenError
  | Encoded t =>
      if bool_decide (signature t = HS256 key (claims t)) then
        if exp (claims t) <? now then inl TokenExpiredError
        else inr (claims t)
      else inl JsonWebTokenError
  end.

(** [expiresIn: '1h'] *)
Definition one_hour : Z := 3600.

(** *** Credential codec, lines 195 and 233-234 *)

Definition obfuscate (password : string) (salt : Salt) : string :=
  AES_encrypt password "Secret key" salt.

Definition recover (stored : string) : option string :=
  AES_decrypt stored "Secret key".

(** *** Token issue, lines 209 and 240 *)

Definition issue (uid : ObjectId) (now : Z) : Token :=
  jwt_sign uid "secret" one_hour now.

(** *** /signup, lines 179-221 *)

(** [for (let i = 0; i < 100; i++) cart[i] = 0;] *)
Fixpoint seed_loop (fuel : nat) (i : Z) (cart : gmap Z Z) : gmap Z Z :=
  if i <? 100 then
    match fuel with
    | O => cart
    | S fuel' => seed_loop fuel' (i + 1) (<[i := 0]> cart)
    end
  else cart.

Definition seeded_cart : gmap Z Z := seed_loop 100 0 ∅.

Definition signup (now : Z) (salt : Salt) (oid : ObjectId)
    (name email password : string) (db : Db) : Response * Db :=
  match User_findOne_email email db with
  | Some _ =>
      (mkResponse 400 (BJson (JFailure "Email is already registered!")), db)
  | None =>
      let cart := seeded_cart in
      let encryptedPassword := obfuscate password salt in
      let newUser := mkUser oid name email encryptedPassword cart now in
      match User_save newUser db with
      | None =>
          (mkResponse 500 (BJson (JFailure "Internal server error")), db)
      | Some db' =>
          let token := issue (u_id newUser) now in
          (mkResponse 201 (BJson (JSuccessToken token (u_cartData newUser))),
           db')
      end
  end.

(** *** /login, lines 224-252 *)

Definition login (now : Z) (email password : string) (db : Db)
  : Response * Db :=
  match User_findOne_email email db with
  | None => (mkResponse 404 (BJson (JFailure "User not found")), db)
  | Some user =>
      match recover (u_password user) with
      | None =>
          (mkResponse 500 (BJson (JFailure "Internal server error")), db)
      | Some originalPassword =>
          if bool_decide (originalPassword <> password) then
            (mkResponse 401 (BJson (JFailure "Incorrect password")), db)
          else
            let token := issue (u_id user) now in
            (mkResponse 200 (BJson (JSuccessToken token (u_cartData user))),
             db)
      end
  end.

(** *** fetchUser, lines 255-268 *)

Definition unauthenticated : Response :=
  mkResponse 401 (BJson (JErrors "Please authenticate using a valid token")).

(** [!token]: no header, or the empty string. *)
Definition no_token (header : option TokenString) : bool :=
  match header with
  | None => true
  | Some (Garbage s) => bool_decide (s = "")
  | Some (Encoded _) => false
  end.

(** The middleware answers itself ([inl]) or hands [req.user] on ([inr]). *)
Definition fetchUser (now : Z) (header : option TokenString)
  : Response + ObjectId :=
  match header with
  | None => inl unauthenticated
  | Some token =>
      if no_token header then inl unauthenticated
      else
        match jwt_verify token "secret" now with
        | inr data => inr (userId data)
        | inl _ => inl unauthenticated
        end
  end.

Definition protected (now : Z) (header : option TokenString)
    (handler : ObjectId -> Db -> Response * Db) (db : Db) : Response * Db :=
  match fetchUser now header with
  | inl res => (res, db)
  | inr user => handler user db
  end.

(** *** /addtocart, lines 270-305 *)

(** [!userData.cartData[itemId]]: the entry is missing or 0. *)
Definition falsy (entry : option Z) : bool :=
  match entry with
  | None => true
  | Some n => n =? 0
  end.

Definition addtocart_handler (itemId : Z) (user : ObjectId) (db : Db)
  : Response * Db :=
  match User_findOne_id user db with
  | None => (mkResponse 404 (BText "User not found"), db)
  | Some userData =>
      let cartData := u_cartData userData in
      let cartData' :=
        if falsy (cartData !! itemId) then <[itemId := 1]> cartData
        else <[itemId := default 0 (cartData !! itemId) + 1]> cartData in
      (mkResponse 200 (BText "Item added to the cart"),
       User_findOneAndUpdate user cartData' db)
  end.

Definition addtocart (now : Z) (header : option TokenString) (itemId : Z)
  : Db -> Response * Db :=
  protected now header (addtocart_handler itemId).

(** *** /removefromcart, lines 307-336 *)

Definition removefromcart_handler (itemId : Z) (user : ObjectId) (db : Db)
  : Response * Db :=
  match User_findOne_id user db with
  | None => (mkResponse 404 (BText "User not found"), db)
  | Some userData =>
      let cartData := u_cartData userData in
      if falsy (cartData !! itemId)
         || (default 0 (cartData !! itemId) <=? 0) then
        (mkResponse 400 (BText "Item not found in cart"), db)
      else
        let cartData' :=
          <[itemId := default 0 (cartData !! itemId) - 1]> cartData in
        (mkResponse 200 (BText "Removed one item"),
         User_findOneAndUpdate user cartData' db)
  end.

Definition removefromcart (now : Z) (header : option TokenString)
    (itemId : Z) : Db -> Response * Db :=
  protected now header (removefromcart_handler itemId).

(** *** /getcart, lines 339-348 *)

Definition getcart_handler (user : ObjectId) (db : Db) : Response * Db :=
  match User_findOne_id user db with
  | None => (mkResponse 500 (BText "Internal server error"), db)
  | Some userData => (mkResponse 200 (BJson (JCart (u_cartData userData))), db)
  end.

Definition getcart (now : Z) (header : option TokenString)
  : Db -> Response * Db :=
  protected now header getcart_handler.

(** *** /products, /addproduct, /removeproduct, lines 99-152 *)

(** [required: true] on a String path: the validator passes a string that
    is not empty. *)
Definition required_String (v : option string) : option string :=
  match v with
  | Some EmptyString => None
  | Some s => Some s
  | None => None
  end.

(** [new Product({...})] followed by the validation [save()] runs:
    [required: true] on name, image, category (non-empty strings) and on
    both prices; [date] and [available] take their defaults. *)
Definition new_Product (id now : Z) (b : ProductBody) : option Product :=
  match required_String (b_name b), required_String (b_image b),
        required_String (b_category b), b_new_price b, b_old_price b with
  | Some name, Some image, Some category, Some new_price, Some old_price =>
      Some (mkProduct id name image category new_price old_price now true)
  | _, _, _, _, _ => None
  end.

Definition get_products (db : Db) : Response * Db :=
  (mkResponse 200 (BJson (JProducts (Product_find db))), db).

(** [product.length > 0 ? product[product.length - 1].id + 1 : 1] *)
Definition next_id (product : list Product) : Z :=
  match last product with
  | Some p => p_id p + 1
  | None => 1
  end.

Definition addproduct (now : Z) (b : ProductBody) (db : Db) : Response * Db :=
  let product := Product_find db in
  let id := next_id product in
  match new_Product id now b with
  | Some newProduct =>
      (mkResponse 200 (BJson (JSuccessName (b_name b))),
       Product_save newProduct db)
  | None =>
      (* [error.message] of the validation error, abridged *)
      (mkResponse 500 (BJson (JFailure "Product validation failed")), db)
  end.

Definition removeproduct (productId : Z) (db : Db) : Response * Db :=
  (mkResponse 200 (BJson JSuccess), Product_findOneAndDelete productId db).

(** *** /newcollection and /popularinwomen, lines 351-380 *)

(** [products.slice(-8)]: the last 8 elements, all of them when there are
    fewer. *)
Definition newcollection (db : Db) : Response * Db :=
  let all := Product_find db in
  let newcollection := drop (length all - 8) all in
  (mkResponse 200 (BJson (JProducts newcollection)), db).

(** [Product.find({ category })]. *)
Definition Product_find_category (category : string) (db : Db)
  : list Product :=
  filter (fun p => p_category p = category) (products db).

(** [products.slice(0, 4)] of the products of category "women". *)
Definition popularinwomen (db : Db) : Response * Db :=
  let women := Product_find_category "women" db in
  let popular_in_women := take 4 women in
  (mkResponse 200 (BJson (JProducts popular_in_women)), db).

(** *** The server as a transition system *)

Definition handle (r : Request) (db : Db) : Response * Db :=
  match r with
  | GetProducts => get_products db
  | AddProduct now b => addproduct now b db
  | RemoveProduct productId => removeproduct productId db
  | Signup now salt oid name email password =>
      signup now salt oid name email password db
  | Login now email password => login now email password db
  | AddToCart now header itemId => addtocart now header itemId db
  | RemoveFromCart now header itemId => removefromcart now header itemId db
  | GetCart now header => getcart now header db
  end.

(** The database after a sequence of requests, oldest first. *)
Definition run (rs : list Request) (db : Db) : Db :=
  foldl (fun d r => snd (handle r d)) db rs.

(** The states the server reaches from the empty database. *)
Definition reachable (db : Db) : Prop :=
  exists rs : list Request, db = run rs empty_db.

(** The greatest id among the existing products, if there is a product. *)
Definition max_id (ps : list Product) : option Z :=
  match ps with
  | [] => None
  | p :: rest => Some (foldr (fun q m => Z.max (p_id q) m) (p_id p) rest)
  end.

(** The cart entry the store holds for an account. *)
Definition persisted (user : ObjectId) (itemId : Z) (db : Db) : option Z :=
  u ← User_findOne_id user db; u_cartData u !! itemId.

(** The response of /removefromcart for an item that is not in the cart. *)
Definition item_not_in_cart : Response :=
  mkResponse 400 (BText "Item not found in cart").

(** Products are stored in ascending order of id. *)
Definition by_id (p q : Product) : Prop := p_id p < p_id q.
Definition ascending (ps : list Product) : Prop := StronglySorted by_id ps.

(** Every count of a cart is at least 0. *)
Definition cart_nonnegative (cart : gmap Z Z) : Prop :=
  map_Forall (fun _ n => 0 <= n) cart.

(** What identifies an account: every field but the cart. *)
Definition account_identity (u : User)
  : ObjectId * string * string * string * Z :=
  (u_id u, u_name u, u_email u, u_password u, u_date u).

(** The database after a series of /addtocart requests for one item, each
    with its own clock reading and header. *)
Definition addtocart_series (itemId : Z)
    (reqs : list (Z * option TokenString)) (db : Db) : Db :=
  foldl (fun d req => snd (addtocart req.1 req.2 itemId d)) db reqs.


(** The requests that write to the product collection. *)
Definition catalog_write (r : Request) : bool :=
  match r with
  | AddProduct _ _ | RemoveProduct _ => true
  | _ => false
  end.

(** The requests that write to the account collection. *)
Definition account_write (r : Request) : bool :=
  match r with
  | Signup _ _ _ _ _ _ | AddToCart _ _ _ | RemoveFromCart _ _ _ => true
  | _ => false
  end.

(** ** Properties of the collection operations *)

Lemma update_first_found (uid : ObjectId) (cart : gmap Z Z) (us : list User)
    (u : User) :
  find (fun v => bool_decide (u_id v = uid)) us = Some u ->
  find (fun v => bool_decide (u_id v = uid)) (update_first uid cart us)
  = Some (set_cartData cart u).
Proof.
  induction us as [|v us IH]; simpl; [discriminate|].
  case_bool_decide as Hv; simpl.
  - intros [= ->]. by rewrite bool_decide_true.
  - intros Hf. rewrite bool_decide_false by done. auto.
Qed.

Lemma update_first_other (uid uid' : ObjectId) (cart : gmap Z Z)
    (us : list User) :
  uid' <> uid ->
  find (fun v => bool_decide (u_id v = uid')) (update_first uid cart us)
  = find (fun v => bool_decide (u_id v = uid')) us.
Proof.
  intros Hne. induction us as [|v us IH]; simpl; [done|].
  case_bool_decide as Hv; simpl.
  - rewrite !bool_decide_false by congruence. done.
  - by rewrite IH.
Qed.

Lemma update_first_absent (uid : ObjectId) (cart : gmap Z Z) (us : list User) :
  find (fun v => bool_decide (u_id v = uid)) us = None ->
  update_first uid cart us = us.
Proof.
  induction us as [|v us IH]; simpl; [done|].
  case_bool_decide; [discriminate|]. intros Hf. by rewrite IH.
Qed.

Lemma persisted_update_same (user : ObjectId) (cart : gmap Z Z) (k : Z)
    (db : Db) (u : User) :
  User_findOne_id user db = Some u ->
  persisted user k (User_findOneAndUpdate user cart db) = cart !! k.
Proof.
  intros Hu. unfold persisted, User_findOne_id, User_findOneAndUpdate; simpl.
  by rewrite (update_first_found _ _ _ _ Hu).
Qed.

Lemma persisted_update_other (user user' : ObjectId) (cart : gmap Z Z)
    (k : Z) (db : Db) :
  user' <> user ->
  persisted user' k (User_findOneAndUpdate user cart db) = persisted user' k db.
Proof.
  intros Hne. unfold persisted, User_findOne_id, User_findOneAndUpdate; simpl.
  by rewrite update_first_other.
Qed.

Lemma protected_authenticated (now : Z) (header : option TokenString)
    (handler : ObjectId -> Db -> Response * Db) (db : Db) (user : ObjectId) :
  fetchUser now header = inr user ->
  protected now header handler db = handler user db.
Proof. intros H. unfold protected. by rewrite H. Qed.

(** The entry [/addtocart] writes: one more than the entry read, an entry
    that is missing counting as 0. *)
Lemma addtocart_handler_entry (itemId : Z) (user : ObjectId) (db : Db)
    (userData : User) :
  User_findOne_id user db = Some userData ->
  persisted user itemId (snd (addtocart_handler itemId user db))
  = Some (default 0 (u_cartData userData !! itemId) + 1).
Proof.
  intros Hu. unfold addtocart_handler. rewrite Hu. simpl.
  rewrite (persisted_update_same _ _ _ _ _ Hu).
  destruct (u_cartData userData !! itemId) as [n|] eqn:He; simpl.
  - destruct (Z.eqb_spec n 0) as [->|Hn]; by rewrite lookup_insert_eq.
  - by rewrite lookup_insert_eq.
Qed.

(** C4: for an authenticated request of an existing account, /addtocart sets
    the persisted entry [cartData[itemId]] to its previous count plus 1, an
    absent entry counting as 0 (so the key is created with value 1). *)
Theorem addtocart_increments (now : Z) (header : option TokenString)
    (itemId : Z) (user : ObjectId) (db : Db) :
  fetchUser now header = inr user ->
  is_Some (User_findOne_id user db) ->
  let out := addtocart now header itemId db in
  fst out = mkResponse 200 (BText "Item added to the cart") /\
  persisted user itemId (snd out)
  = Some (default 0 (persisted user itemId db) + 1) /\
  (persisted user itemId db = None -> persisted user itemId (snd out) = Some 1).
Proof.
  intros Hauth [userData Hu]. cbn zeta. unfold addtocart.
  rewrite (protected_authenticated _ _ _ _ _ Hauth).
  assert (Hentry := addtocart_handler_entry itemId user db userData Hu).
  assert (Hold : persisted user itemId db = u_cartData userData !! itemId).
  { unfold persisted. by rewrite Hu. }
  rewrite Hold. split_and!.
  - unfold addtocart_handler. by rewrite Hu.
  - done.
  - intros Hnone. by rewrite Hentry, Hnone.
Qed.

(** The guard of /removefromcart, [!entry || entry <= 0], holds exactly when
    the entry is missing or at most 0. *)
Lemma removefromcart_guard (entry : option Z) :
  falsy entry || (default 0 entry <=? 0) = true <->
  entry = None \/ exists n, entry = Some n /\ n <= 0.
Proof.
  destruct entry as [n|]; simpl.
  - rewrite orb_true_iff, Z.eqb_eq, Z.leb_le. split.
    + intros H. right. exists n. split; [done|lia].
    + intros [H|(m & [= <-] & Hm)]; [done|lia].
  - split; [by left|done].
Qed.

(** C5: for an authenticated request of an existing account, /removefromcart
    answers "Item not found in cart" exactly when [cartData[itemId]] is
    absent or at most 0, and then leaves the database as it was; otherwise
    it persists the entry minus 1. *)
Theorem removefromcart_decrements (now : Z) (header : option TokenString)
    (itemId : Z) (user : ObjectId) (db : Db) :
  fetchUser now header = inr user ->
  is_Some (User_findOne_id user db) ->
  let entry := persisted user itemId db in
  let out := removefromcart now header itemId db in
  (fst out = item_not_in_cart <->
   entry = None \/ exists n, entry = Some n /\ n <= 0) /\
  (fst out = item_not_in_cart -> snd out = db) /\
  (fst out <> item_not_in_cart ->
   fst out = mkResponse 200 (BText "Removed one item") /\
   exists n, entry = Some n /\ persisted user itemId (snd out) = Some (n - 1)).
Proof.
  intros Hauth [userData Hu]. cbn zeta. unfold removefromcart.
  rewrite (protected_authenticated _ _ _ _ _ Hauth).
  assert (Hold : persisted user itemId db = u_cartData userData !! itemId).
  { unfold persisted. by rewrite Hu. }
  rewrite Hold. unfold removefromcart_handler. rewrite Hu. cbn zeta.
  pose proof (removefromcart_guard (u_cartData userData !! itemId)) as Hg.
  destruct (falsy (u_cartData userData !! itemId)
            || (default 0 (u_cartData userData !! itemId) <=? 0)) eqn:Hb;
    simpl.
  - split_and!; [|done|done]. split; [intros _; by apply Hg|done].
  - split_and!.
    + split; [discriminate|]. intros H. apply Hg in H. discriminate.
    + discriminate.
    + intros _. split; [done|].
      destruct (u_cartData userData !! itemId) as [n|] eqn:He;
        [|discriminate].
      exists n. split; [done|].
      rewrite (persisted_update_same _ _ _ _ _ Hu). simpl.
      by rewrite lookup_insert_eq.
Qed.

(** Neither cart handler touches an entry under another key, of any
    account. *)
Lemma addtocart_handler_frame (itemId k : Z) (user account : ObjectId)
    (db : Db) :
  k <> itemId ->
  persisted account k (snd (addtocart_handler itemId user db))
  = persisted account k db.
Proof.
  intros Hk. unfold addtocart_handler.
  destruct (User_findOne_id user db) as [userData|] eqn:Hu; simpl; [|done].
  destruct (decide (account = user)) as [->|Hne].
  - rewrite (persisted_update_same _ _ _ _ _ Hu).
    unfold persisted. rewrite Hu. simpl.
    destruct (falsy _); by rewrite lookup_insert_ne.
  - by apply persisted_update_other.
Qed.

Lemma removefromcart_handler_frame (itemId k : Z) (user account : ObjectId)
    (db : Db) :
  k <> itemId ->
  persisted account k (snd (removefromcart_handler itemId user db))
  = persisted account k db.
Proof.
  intros Hk. unfold removefromcart_handler.
  destruct (User_findOne_id user db) as [userData|] eqn:Hu; simpl; [|done].
  destruct (falsy _ || _); simpl; [done|].
  destruct (decide (account = user)) as [->|Hne].
  - rewrite (persisted_update_same _ _ _ _ _ Hu).
    unfold persisted. rewrite Hu. simpl. by rewrite lookup_insert_ne.
  - by apply persisted_update_other.
Qed.

(** C9: both cart mutators preserve every cart entry other than the one
    named by [itemId]: for every account and every key [k <> itemId] the
    persisted count under [k] after /addtocart and after /removefromcart is
    the count before, whatever the outcome of the request. *)
Theorem cart_mutators_frame (now : Z) (header : option TokenString)
    (itemId k : Z) (account : ObjectId) (db : Db) :
  k <> itemId ->
  persisted account k (snd (addtocart now header itemId db))
  = persisted account k db /\
  persisted account k (snd (removefromcart now header itemId db))
  = persisted account k db.
Proof.
  intros Hk. unfold addtocart, removefromcart, protected.
  destruct (fetchUser now header) as [res|user]; simpl; [done|].
  split.
  - by apply addtocart_handler_frame.
  - by apply removefromcart_handler_frame.
Qed.

(** ** The catalog *)

Lemma max_fold_spec (a : Z) (ps : list Product) :
  let m := foldr (fun q m => Z.max (p_id q) m) a ps in
  a <= m /\ (forall q, q ∈ ps -> p_id q <= m) /\
  (m = a \/ exists q, q ∈ ps /\ p_id q = m).
Proof.
  induction ps as [|p ps IH]; simpl.
  - split_and!; [lia|set_solver|by left].
  - destruct IH as (Ha & Hall & Hex). split_and!.
    + lia.
    + intros q [->|Hq]%elem_of_cons; [lia|]. specialize (Hall q Hq). lia.
    + destruct (Z.max_spec (p_id p)
                  (foldr (fun q m => Z.max (p_id q) m) a ps)) as [[_ ->]|[_ ->]].
      * destruct Hex as [->|(q & Hq & <-)]; [by left|].
        right. exists q. split; [by apply list_elem_of_further|done].
      * right. exists p. split; [apply list_elem_of_here|done].
Qed.

(** [max_id] is the greatest id in the collection. *)
Lemma max_id_spec (ps : list Product) (m : Z) :
  max_id ps = Some m ->
  (exists q, q ∈ ps /\ p_id q = m) /\ (forall q, q ∈ ps -> p_id q <= m).
Proof.
  destruct ps as [|p ps]; simpl; [discriminate|]. intros [= <-].
  destruct (max_fold_spec (p_id p) ps) as (Ha & Hall & Hex). split.
  - destruct Hex as [Hm|(q & Hq & Hm)].
    + exists p. split; [apply list_elem_of_here|done].
    + exists q. split; [by apply list_elem_of_further|done].
  - intros q [->|Hq]%elem_of_cons; [done|by apply Hall].
Qed.

Lemma next_id_above (ps : list Product) :
  ascending ps -> forall q, q ∈ ps -> p_id q < next_id ps.
Proof.
  intros Hs q Hq. unfold next_id.
  destruct (last ps) as [x|] eqn:Hl.
  - apply last_Some in Hl as [ps' ->].
    apply StronglySorted_app in Hs as (Hlt & _ & _).
    apply elem_of_app in Hq as [Hq|Hq].
    + specialize (Hlt q x Hq). unfold by_id in Hlt.
      assert (p_id q < p_id x) by (apply Hlt; set_solver). lia.
    + apply list_elem_of_singleton in Hq as ->. lia.
  - apply last_None in Hl as ->. set_solver.
Qed.

(** On an ascending collection the id of the last product is the maximum. *)
Lemma next_id_max (ps : list Product) :
  ascending ps ->
  next_id ps = match max_id ps with Some m => m + 1 | None => 1 end.
Proof.
  intros Hs. destruct (max_id ps) as [m|] eqn:Hm.
  - destruct (max_id_spec ps m Hm) as ((q & Hq & <-) & Hall).
    pose proof (next_id_above ps Hs q Hq) as Hlt.
    unfold next_id in *. destruct (last ps) as [x|] eqn:Hl.
    + apply last_Some_elem_of in Hl. specialize (Hall x Hl). lia.
    + apply last_None in Hl as ->. set_solver.
  - destruct ps; [done|discriminate].
Qed.

Lemma delete_first_Forall (P : Product -> Prop) (pid : Z) (ps : list Product) :
  Forall P ps -> Forall P (delete_first pid ps).
Proof.
  induction 1 as [|p ps Hp Hps IH]; simpl; [constructor|].
  case_bool_decide; [done|by constructor].
Qed.

Lemma delete_first_ascending (pid : Z) (ps : list Product) :
  ascending ps -> ascending (delete_first pid ps).
Proof.
  unfold ascending. induction ps as [|p ps IH]; simpl; [done|].
  rewrite StronglySorted_cons. intros [Hall Hs].
  case_bool_decide; [done|].
  apply StronglySorted_cons. split; [by apply delete_first_Forall|auto].
Qed.

Lemma delete_first_absent (pid : Z) (ps : list Product) :
  (forall p, p ∈ ps -> p_id p <> pid) -> delete_first pid ps = ps.
Proof.
  induction ps as [|p ps IH]; simpl; [done|]. intros Hall.
  rewrite bool_decide_false by (apply Hall; set_solver).
  rewrite IH; [done|]. intros q Hq. apply Hall. set_solver.
Qed.

Lemma addproduct_ascending (now : Z) (b : ProductBody) (db : Db) :
  ascending (products db) -> ascending (products (snd (addproduct now b db))).
Proof.
  intros Hs. unfold addproduct.
  destruct (new_Product _ now b) as [p|] eqn:Hp; simpl; [|done].
  assert (p_id p = next_id (products db)) as Hid.
  { unfold new_Product in Hp. repeat case_match; try discriminate.
    by injection Hp as <-. }
  apply StronglySorted_app_2; [|done|repeat constructor].
  intros q x Hq ->%list_elem_of_singleton. unfold by_id. rewrite Hid.
  by apply next_id_above.
Qed.

Lemma protected_products (now : Z) (header : option TokenString)
    (handler : ObjectId -> Db -> Response * Db) (db : Db) :
  (forall user, products (snd (handler user db)) = products db) ->
  products (snd (protected now header handler db)) = products db.
Proof. intros H. unfold protected. destruct (fetchUser now header); auto. Qed.

Lemma handle_ascending (r : Request) (db : Db) :
  ascending (products db) -> ascending (products (snd (handle r db))).
Proof.
  intros Hs. destruct r; simpl.
  - done.
  - by apply addproduct_ascending.
  - by apply delete_first_ascending.
  - unfold signup, User_save. repeat case_match; simplify_eq; done.
  - unfold login. repeat case_match; done.
  - unfold addtocart. rewrite protected_products; [done|].
    intros user. unfold addtocart_handler. by case_match.
  - unfold removefromcart. rewrite protected_products; [done|].
    intros user. unfold removefromcart_handler. repeat case_match; done.
  - unfold getcart. rewrite protected_products; [done|].
    intros user. unfold getcart_handler. by case_match.
Qed.

Lemma run_ascending (rs : list Request) (db : Db) :
  ascending (products db) -> ascending (products (run rs db)).
Proof.
  revert db. induction rs as [|r rs IH]; intros db Hs; simpl; [done|].
  apply IH. by apply handle_ascending.
Qed.

Lemma reachable_ascending (db : Db) : reachable db -> ascending (products db).
Proof. intros [rs ->]. apply run_ascending. constructor. Qed.

(** C8: in every state the catalog reaches from the empty database through
    any sequence of requests (inserts and deletions included), a successful
    /addproduct stores the new product last, with the id
    max(ids of existing products) + 1 (1 on an empty catalog), which is
    strictly greater than every existing id. *)
Theorem addproduct_assigns_max_plus_one (now : Z) (b : ProductBody) (db : Db) :
  reachable db ->
  status (fst (addproduct now b db)) = 200 ->
  exists p,
    products (snd (addproduct now b db)) = (products db ++ [p])%list /\
    p_id p = match max_id (products db) with Some m => m + 1 | None => 1 end /\
    forall q, q ∈ products db -> p_id q < p_id p.
Proof.
  intros Hr%reachable_ascending. unfold addproduct.
  destruct (new_Product _ now b) as [p|] eqn:Hp; simpl; [|discriminate].
  intros _. exists p.
  assert (p_id p = next_id (products db)) as Hid.
  { unfold new_Product in Hp. repeat case_match; try discriminate.
    by injection Hp as <-. }
  split_and!; [done| |].
  - rewrite Hid. by apply next_id_max.
  - intros q Hq. rewrite Hid. by apply next_id_above.
Qed.

(** C10: /removeproduct answers [{success: true}] whatever the id and the
    catalog: when no product has the requested id the database is left as
    it was, and the response is the one a deletion that removed a product
    gets. *)
Theorem removeproduct_reports_success (productId : Z) (db : Db) :
  fst (removeproduct productId db) = mkResponse 200 (BJson JSuccess) /\
  ((forall p, p ∈ products db -> p_id p <> productId) ->
   snd (removeproduct productId db) = db) /\
  (forall productId' db',
     fst (removeproduct productId' db') = fst (removeproduct productId db)).
Proof.
  split_and!; [done| |done].
  intros Habsent. unfold removeproduct, Product_findOneAndDelete. simpl.
  rewrite delete_first_absent by done. by destruct db.
Qed.

(** ** Accounts *)

Lemma find_app_r {A : Type} (f : A -> bool) (l1 l2 : list A) :
  find f l1 = None -> find f (l1 ++ l2)%list = find f l2.
Proof.
  induction l1 as [|x l1 IH]; simpl; [done|].
  destruct (f x); [discriminate|auto].
Qed.

Lemma findOne_email_registered (email : string) (db : Db) :
  (exists u, u ∈ users db /\ u_email u = email) ->
  is_Some (User_findOne_email email db).
Proof.
  intros (u & Hu & He). unfold User_findOne_email.
  destruct (find _ (users db)) as [v|] eqn:Hf; [by eexists|].
  apply list_elem_of_In in Hu. pose proof (find_none _ _ Hf u Hu) as Hb.
  simpl in Hb. by apply bool_decide_eq_false in Hb.
Qed.

(** C6: a signup whose email already belongs to an account is answered with
    status 400 "Email is already registered!" and leaves the database, and
    so the account collection, as it was. *)
Theorem signup_email_taken (now : Z) (salt : Salt) (oid : ObjectId)
    (name email password : string) (db : Db) :
  (exists u, u ∈ users db /\ u_email u = email) ->
  signup now salt oid name email password db
  = (mkResponse 400 (BJson (JFailure "Email is already registered!")), db).
Proof.
  intros [u Hu]%findOne_email_registered. unfold signup. by rewrite Hu.
Qed.

(** The loop of /signup visits every index from [i] up to 99. *)
Lemma seed_loop_lookup (fuel : nat) (i : Z) (cart : gmap Z Z) (k : Z) :
  100 - i <= Z.of_nat fuel ->
  seed_loop fuel i cart !! k
  = if bool_decide (i <= k < 100) then Some 0 else cart !! k.
Proof.
  revert i cart. induction fuel as [|fuel IH]; intros i cart Hfuel.
  - simpl. rewrite (proj2 (Z.ltb_ge i 100)) by lia.
    rewrite bool_decide_false by lia. by destruct (i <? 100).
  - simpl. destruct (Z.ltb_spec i 100) as [Hlt|Hge].
    + rewrite IH by lia. destruct (decide (k = i)) as [->|Hne].
      * rewrite bool_decide_false by lia. rewrite lookup_insert_eq.
        by rewrite bool_decide_true by lia.
      * rewrite lookup_insert_ne by done.
        destruct (decide (i + 1 <= k < 100)).
        -- by rewrite !bool_decide_true by lia.
        -- by rewrite !bool_decide_false by lia.
    + by rewrite bool_decide_false by lia.
Qed.

(** The cart a signup seeds: the keys 0 to 99, each with count 0. *)
Lemma seeded_cart_lookup (k : Z) :
  seeded_cart !! k = if bool_decide (0 <= k < 100) then Some 0 else None.
Proof. unfold seeded_cart. rewrite seed_loop_lookup by (simpl; lia). done. Qed.

Lemma seeded_cart_size : size seeded_cart = 100%nat.
Proof. vm_compute. reflexivity. Qed.

(** C7: a successful signup seeds the account's cart with exactly the 100
    keys 0 to 99, each with count 0, and a login that follows it with the
    same credentials succeeds and returns that cart. *)
Theorem signup_then_login (now : Z) (salt : Salt) (oid : ObjectId)
    (name email password : string) (db : Db) (now' : Z) :
  AES_reversible ->
  status (fst (signup now salt oid name email password db)) = 201 ->
  let out := signup now salt oid name email password db in
  (size seeded_cart = 100%nat /\
   forall k,
     seeded_cart !! k = if bool_decide (0 <= k < 100) then Some 0 else None) /\
  fst out = mkResponse 201 (BJson (JSuccessToken (issue oid now) seeded_cart)) /\
  (exists u, User_findOne_email email (snd out) = Some u /\
             u_cartData u = seeded_cart) /\
  login now' email password (snd out)
  = (mkResponse 200 (BJson (JSuccessToken (issue oid now') seeded_cart)),
     snd out).
Proof.
  intros Hrev. cbn zeta. unfold signup.
  destruct (User_findOne_email email db) as [u|] eqn:Hfree;
    [cbn [fst status]; discriminate|].
  unfold User_save.
  destruct (existsb _ (users db)) eqn:Hdup;
    [cbn [fst status]; discriminate|].
  cbn [fst snd status u_id u_cartData]. intros _.
  set (newUser := mkUser oid name email (obfuscate password salt)
                    seeded_cart now).
  assert (Hfound : User_findOne_email email
                     (mkDb (products db) (users db ++ [newUser]))
                   = Some newUser).
  { unfold User_findOne_email in *. cbn [users]. rewrite find_app_r by done.
    cbn [find newUser u_email]. by rewrite bool_decide_true. }
  split_and!.
  - apply seeded_cart_size.
  - apply seeded_cart_lookup.
  - reflexivity.
  - exists newUser. split; [exact Hfound|reflexivity].
  - unfold login. rewrite Hfound. cbn [newUser u_password u_id u_cartData].
    unfold recover, obfuscate. rewrite Hrev.
    rewrite bool_decide_false by (intros H; by apply H). reflexivity.
Qed.

(** ** Session tokens *)

Lemma verify_issued (uid : ObjectId) (issued now : Z) :
  jwt_verify (Encoded (issue uid issued)) "secret" now
  = if issued + one_hour <? now then inl TokenExpiredError
    else inr (mkClaims uid issued (issued + one_hour)).
Proof.
  unfold jwt_verify, issue, jwt_sign. cbn [claims signature exp].
  by rewrite bool_decide_true.
Qed.

(** Whatever makes verification fail, the middleware gives the one 401
    response. *)
Lemma fetchUser_rejects (now : Z) (token : TokenString) (e : VerifyError) :
  jwt_verify token "secret" now = inl e ->
  fetchUser now (Some token) = inl unauthenticated.
Proof.
  intros He. unfold fetchUser. destruct (no_token (Some token)); [done|].
  by rewrite He.
Qed.

(** C2: a token issued for an account verifies to that account from the
    moment of issue until its expiry, one hour (3600 s) later; once more
    than one hour has passed verification fails as expired, and the
    middleware answers as it does for any invalid token. *)
Theorem token_verifies_until_expiry (uid : ObjectId) (issued now : Z) :
  let token := Encoded (issue uid issued) in
  exp (claims (issue uid issued)) = issued + 3600 /\
  (issued <= now < issued + 3600 ->
   (exists data, jwt_verify token "secret" now = inr data /\
                 userId data = uid) /\
   fetchUser now (Some token) = inr uid) /\
  (issued + 3600 < now ->
   jwt_verify token "secret" now = inl TokenExpiredError /\
   fetchUser now (Some token) = inl unauthenticated /\
   forall invalid,
     jwt_verify invalid "secret" now = inl JsonWebTokenError ->
     fetchUser now (Some invalid) = fetchUser now (Some token)).
Proof.
  cbn zeta. pose proof (verify_issued uid issued now) as Hv.
  unfold one_hour in Hv. split_and!; [done| |].
  - intros Hnow. rewrite (proj2 (Z.ltb_ge _ _)) in Hv by lia. split.
    + eexists. split; [exact Hv|done].
    + unfold fetchUser. cbn [no_token]. by rewrite Hv.
  - intros Hnow. rewrite (proj2 (Z.ltb_lt _ _)) in Hv by lia.
    pose proof (fetchUser_rejects _ _ _ Hv) as Hf. split_and!; [done..|].
    intros invalid Hi. rewrite Hf. by eapply fetchUser_rejects.
Qed.

(** ** Further properties of the handlers *)

(** *** What a request leaves alone *)

Lemma handle_products (r : Request) (db : Db) :
  catalog_write r = false -> products (snd (handle r db)) = products db.
Proof.
  destruct r; simpl; try discriminate; intros _.
  - done.
  - unfold signup, User_save. repeat case_match; simplify_eq; done.
  - unfold login. repeat case_match; done.
  - unfold addtocart. apply protected_products.
    intros user. unfold addtocart_handler. by case_match.
  - unfold removefromcart. apply protected_products.
    intros user. unfold removefromcart_handler. repeat case_match; done.
  - unfold getcart. apply protected_products.
    intros user. unfold getcart_handler. by case_match.
Qed.

Lemma protected_users (now : Z) (header : option TokenString)
    (handler : ObjectId -> Db -> Response * Db) (db : Db) :
  (forall user, users (snd (handler user db)) = users db) ->
  users (snd (protected now header handler db)) = users db.
Proof. intros H. unfold protected. destruct (fetchUser now header); auto. Qed.

Lemma handle_users (r : Request) (db : Db) :
  account_write r = false -> users (snd (handle r db)) = users db.
Proof.
  destruct r; simpl; try discriminate; intros _.
  - done.
  - unfold addproduct. by case_match.
  - done.
  - unfold login. repeat case_match; done.
  - unfold getcart. apply protected_users.
    intros user. unfold getcart_handler. by case_match.
Qed.

(** X20: the product routes never touch an account, and the account and
    cart routes never touch a product; no route writes to both
    collections. *)
Theorem catalog_and_accounts_independent (r : Request) (db : Db) :
  (catalog_write r = false -> products (snd (handle r db)) = products db) /\
  (account_write r = false -> users (snd (handle r db)) = users db) /\
  (catalog_write r && account_write r = false).
Proof.
  split_and!; [apply handle_products|apply handle_users|by destruct r].
Qed.

(** *** Invariants of the account collection *)

Lemma update_first_Forall (P : User -> Prop) (uid : ObjectId)
    (cart : gmap Z Z) (us : list User) :
  Forall P us ->
  (forall u, P u -> P (set_cartData cart u)) ->
  Forall P (update_first uid cart us).
Proof.
  intros Hall Hset. induction Hall as [|u us Hu Hus IH]; simpl; [constructor|].
  case_bool_decide; constructor; auto.
Qed.

Lemma update_first_Forall_found (P : User -> Prop) (uid : ObjectId)
    (cart : gmap Z Z) (us : list User) (u : User) :
  find (fun v => bool_decide (u_id v = uid)) us = Some u ->
  Forall P us ->
  P (set_cartData cart u) ->
  Forall P (update_first uid cart us).
Proof.
  intros Hf Hall Hp. induction Hall as [|v us Hv Hus IH]; simpl; [constructor|].
  simpl in Hf. case_bool_decide.
  - injection Hf as ->. by constructor.
  - constructor; auto.
Qed.

Lemma update_first_map {B : Type} (f : User -> B) (uid : ObjectId)
    (cart : gmap Z Z) (us : list User) :
  (forall c u, f (set_cartData c u) = f u) ->
  map f (update_first uid cart us) = map f us.
Proof.
  intros Hf. induction us as [|u us IH]; simpl; [done|].
  case_bool_decide; simpl; [by rewrite Hf|by rewrite IH].
Qed.

Lemma findOne_id_Forall (P : User -> Prop) (uid : ObjectId) (db : Db)
    (u : User) :
  User_findOne_id uid db = Some u -> Forall P (users db) -> P u.
Proof.
  intros Hf Hall. apply find_some in Hf as [Hin _].
  rewrite Forall_forall in Hall. apply Hall. by apply list_elem_of_In.
Qed.

Lemma seeded_cart_nonnegative : cart_nonnegative seeded_cart.
Proof.
  intros k n. rewrite seeded_cart_lookup. case_bool_decide; [|discriminate].
  intros [= <-]. lia.
Qed.

Lemma handle_carts_nonnegative (r : Request) (db : Db) :
  Forall (fun u => cart_nonnegative (u_cartData u)) (users db) ->
  Forall (fun u => cart_nonnegative (u_cartData u)) (users (snd (handle r db))).
Proof.
  intros Hinv. destruct (account_write r) eqn:Hw;
    [|by rewrite handle_users]. destruct r; try discriminate; simpl.
  - unfold signup, User_save. repeat case_match; simplify_eq; try done.
    cbn [snd users]. apply Forall_app. split; [done|].
    constructor; [|constructor]. apply seeded_cart_nonnegative.
  - unfold addtocart, protected. destruct (fetchUser now header); [done|].
    unfold addtocart_handler.
    destruct (User_findOne_id o db) as [userData|] eqn:Hu; [|done].
    cbn [snd User_findOneAndUpdate users].
    pose proof (findOne_id_Forall _ _ _ _ Hu Hinv) as Hcart.
    apply (update_first_Forall_found _ _ _ _ userData Hu Hinv).
    cbn [set_cartData u_cartData]. unfold cart_nonnegative in *.
    destruct (u_cartData userData !! itemId) as [n|] eqn:He; simpl.
    + pose proof (Hcart _ _ He) as Hn. simpl in Hn.
      destruct (n =? 0); apply map_Forall_insert_2; (done || lia).
    + by apply map_Forall_insert_2.
  - unfold removefromcart, protected. destruct (fetchUser now header); [done|].
    unfold removefromcart_handler.
    destruct (User_findOne_id o db) as [userData|] eqn:Hu; [|done].
    pose proof (findOne_id_Forall _ _ _ _ Hu Hinv) as Hcart.
    destruct (u_cartData userData !! itemId) as [n|] eqn:He; simpl; [|done].
    destruct (Z.eqb_spec n 0); simpl; [done|].
    destruct (Z.leb_spec n 0); simpl; [done|].
    apply (update_first_Forall_found _ _ _ _ userData Hu Hinv).
    cbn [set_cartData u_cartData]. unfold cart_nonnegative in *.
    apply map_Forall_insert_2; [lia|done].
Qed.

(** X1: no cart count is ever negative: in every state the server reaches
    from the empty database, every entry of every account's cart is at
    least 0. *)
Theorem carts_never_negative (db : Db) (u : User) (itemId n : Z) :
  reachable db -> u ∈ users db -> u_cartData u !! itemId = Some n -> 0 <= n.
Proof.
  intros [rs ->].
  assert (Hinv : Forall (fun u => cart_nonnegative (u_cartData u))
                   (users (run rs empty_db))).
  { unfold run. generalize empty_db (Forall_nil_2
      (fun u => cart_nonnegative (u_cartData u)) : Forall _ (users empty_db)).
    induction rs as [|r rs IH]; intros d Hd; simpl; [done|].
    apply IH. by apply handle_carts_nonnegative. }
  intros Hu He. rewrite Forall_forall in Hinv.
  exact (Hinv u Hu itemId n He).
Qed.

Lemma User_save_Some (u : User) (db db' : Db) :
  User_save u db = Some db' ->
  db' = mkDb (products db) (users db ++ [u]) /\
  (forall v, v ∈ users db -> u_id v <> u_id u /\ u_email v <> u_email u).
Proof.
  unfold User_save. destruct (existsb _ (users db)) eqn:Hdup; [discriminate|].
  intros [= <-]. split; [done|]. intros v Hv.
  rewrite <- not_true_iff_false, existsb_exists in Hdup.
  split; intros Heq; apply Hdup; exists v;
    (split; [by apply list_elem_of_In|]);
    rewrite orb_true_iff, !bool_decide_eq_true; auto.
Qed.

(** What /signup leaves behind when it answers 201. *)
Lemma signup_created (now : Z) (salt : Salt) (oid : ObjectId)
    (name email password : string) (db : Db) :
  status (fst (signup now salt oid name email password db)) = 201 ->
  let newUser := mkUser oid name email (obfuscate password salt)
                   seeded_cart now in
  signup now salt oid name email password db
  = (mkResponse 201 (BJson (JSuccessToken (issue oid now) seeded_cart)),
     mkDb (products db) (users db ++ [newUser])) /\
  (forall v, v ∈ users db -> u_id v <> oid /\ u_email v <> email).
Proof.
  cbn zeta. unfold signup.
  destruct (User_findOne_email email db); [cbn [fst status]; discriminate|].
  destruct (User_save _ db) as [db'|] eqn:Hsave;
    [|cbn [fst status]; discriminate].
  intros _. apply User_save_Some in Hsave as [-> Hfresh]. split; [done|].
  exact Hfresh.
Qed.

Lemma signup_users (now : Z) (salt : Salt) (oid : ObjectId)
    (name email password : string) (db : Db) :
  let out := signup now salt oid name email password db in
  (status (fst out) = 201 /\
   users (snd out)
   = (users db ++ [mkUser oid name email (obfuscate password salt)
                     seeded_cart now])%list) \/
  (status (fst out) <> 201 /\ snd out = db).
Proof.
  cbn zeta.
  destruct (decide (status (fst (signup now salt oid name email password db))
                    = 201)) as [Hok|Hko].
  - left. split; [done|].
    destruct (signup_created _ _ _ _ _ _ _ Hok) as [-> _]. done.
  - right. split; [done|]. revert Hko. unfold signup, User_save.
    repeat case_match; simplify_eq; cbn [fst snd status]; done.
Qed.

(** The accounts after a request: those before it, untouched but for their
    carts, followed by at most one new account. *)
Lemma handle_accounts (r : Request) (db : Db) :
  exists new,
    map account_identity (users (snd (handle r db)))
    = (map account_identity (users db) ++ map account_identity new)%list /\
    (length new <= 1)%nat /\
    (forall u v, u ∈ new -> v ∈ users db ->
                 u_id v <> u_id u /\ u_email v <> u_email u).
Proof.
  assert (Hsame : users (snd (handle r db)) = users db \/
                  (exists uid cart, users (snd (handle r db))
                                    = update_first uid cart (users db)) ->
                  exists new,
                    map account_identity (users (snd (handle r db)))
                    = (map account_identity (users db)
                       ++ map account_identity new)%list /\
                    (length new <= 1)%nat /\
                    (forall u v, u ∈ new -> v ∈ users db ->
                       u_id v <> u_id u /\ u_email v <> u_email u)).
  { intros H. exists []. simpl. rewrite app_nil_r. split_and!; [|lia|].
    - destruct H as [->|(uid & cart & ->)]; [done|].
      by apply update_first_map.
    - intros u v Hu. by apply elem_of_nil in Hu. }
  destruct (account_write r) eqn:Hw;
    [|apply Hsame; left; by apply handle_users].
  destruct r; try discriminate; simpl in *.
  - destruct (signup_users now salt oid name email password db)
      as [[Hok Hus]|[_ Hsnd]].
    + eexists [_]. rewrite Hus, map_app. split_and!; [done|simpl; lia|].
      intros u v ->%list_elem_of_singleton Hv.
      destruct (signup_created _ _ _ _ _ _ _ Hok) as [_ Hfresh].
      by apply Hfresh.
    + apply Hsame. left. by rewrite Hsnd.
  - apply Hsame. unfold addtocart, protected.
    destruct (fetchUser now header); [by left|]. unfold addtocart_handler.
    destruct (User_findOne_id o db); [|by left]. right. by eexists _, _.
  - apply Hsame. unfold removefromcart, protected.
    destruct (fetchUser now header); [by left|].
    unfold removefromcart_handler.
    destruct (User_findOne_id o db); [|by left].
    destruct (_ || _); [by left|]. right. by eexists _, _.
Qed.

(** X2: no request deletes an account or changes its id, name, email,
    password or date: after any request the accounts are those before it,
    in order and identical but for their carts, followed by at most one new
    account, whose id and email differ from all of theirs. *)
Theorem accounts_only_appended (r : Request) (db : Db) :
  exists new,
    map account_identity (users (snd (handle r db)))
    = (map account_identity (users db) ++ map account_identity new)%list /\
    (length new <= 1)%nat /\
    (forall u v, u ∈ new -> v ∈ users db ->
                 u_id v <> u_id u /\ u_email v <> u_email u).
Proof. apply handle_accounts. Qed.

Lemma handle_accounts_unique (r : Request) (db : Db) :
  NoDup (map u_email (users db)) /\ NoDup (map u_id (users db)) ->
  NoDup (map u_email (users (snd (handle r db)))) /\
  NoDup (map u_id (users (snd (handle r db)))).
Proof.
  intros [Hemail Hid].
  destruct (handle_accounts r db) as (new & Hmap & Hlen & Hfresh).
  assert (Hproj : forall {B} (f : ObjectId * string * string * string * Z -> B)
                    (l : list User),
             map (fun u => f (account_identity u)) l
             = map f (map account_identity l)).
  { intros B f l. by rewrite map_map. }
  pose proof (Hproj _ (fun i => i.1.1.2) (users (snd (handle r db)))) as He.
  pose proof (Hproj _ (fun i => i.1.1.1.1) (users (snd (handle r db)))) as Hi.
  rewrite Hmap, map_app, <- !Hproj in He, Hi. cbn [account_identity fst snd] in *.
  change (map (fun u => u_email u)) with (map u_email) in He.
  change (map (fun u => u_id u)) with (map u_id) in Hi.
  rewrite He, Hi.
  destruct new as [|u [|? ?]]; [| |simpl in Hlen; lia].
  - simpl. by rewrite !app_nil_r.
  - simpl. split; apply NoDup_app; (split_and!; [done| |apply NoDup_singleton]);
      intros x Hx ->%list_elem_of_singleton;
      apply list_elem_of_In, in_map_iff in Hx as (v & Heq & Hv);
      apply list_elem_of_In in Hv;
      destruct (Hfresh u v (list_elem_of_here _ _) Hv); congruence.
Qed.

(** X3: emails and ids identify accounts: in every state the server reaches
    from the empty database no two accounts share an email and no two share
    an [_id]. *)
Theorem accounts_unique (db : Db) :
  reachable db ->
  NoDup (map u_email (users db)) /\ NoDup (map u_id (users db)).
Proof.
  intros [rs ->]. unfold run.
  assert (Hinit : NoDup (map u_email (users empty_db)) /\
                  NoDup (map u_id (users empty_db)))
    by (split; constructor).
  revert Hinit. generalize empty_db.
  induction rs as [|r rs IH]; intros d Hd; simpl; [done|].
  apply IH. by apply handle_accounts_unique.
Qed.

(** *** The cart over several requests *)

Lemma find_app_l {A : Type} (f : A -> bool) (l1 l2 : list A) (x : A) :
  find f l1 = Some x -> find f (l1 ++ l2)%list = Some x.
Proof.
  induction l1 as [|y l1 IH]; simpl; [discriminate|].
  destruct (f y); auto.
Qed.

(** X4: no request removes a cart entry: an entry an account's cart holds is
    still there, under the same key, after any request. *)
Theorem cart_entries_never_removed (r : Request) (db : Db) (user : ObjectId)
    (k n : Z) :
  persisted user k db = Some n ->
  is_Some (persisted user k (snd (handle r db))).
Proof.
  intros Hp.
  assert (Hkeep : forall d, users d = users db ->
                            is_Some (persisted user k d)).
  { intros d Heq. unfold persisted, User_findOne_id in *. rewrite Heq.
    by rewrite Hp. }
  assert (Hupd : forall uid itemId v,
             is_Some (persisted user k
                        (User_findOneAndUpdate uid
                           (<[itemId := v]>
                              (default ∅ (u_cartData <$> User_findOne_id uid db)))
                           db))).
  { intros uid itemId v. destruct (decide (user = uid)) as [->|Hne].
    - unfold persisted in Hp.
      destruct (User_findOne_id uid db) as [u|] eqn:Hu; [|discriminate].
      rewrite (persisted_update_same _ _ _ _ _ Hu). simpl in *.
      destruct (decide (itemId = k)) as [->|Hk].
      + rewrite lookup_insert_eq. by eexists.
      + rewrite lookup_insert_ne by done. by rewrite Hp.
    - rewrite persisted_update_other by done. by rewrite Hp. }
  destruct (account_write r) eqn:Hw; [|by apply Hkeep, handle_users].
  destruct r; try discriminate; cbn [handle] in *.
  - destruct (signup_users now salt oid name email password db)
      as [[_ Hus]|[_ Hsnd]]; [|apply Hkeep; by rewrite Hsnd].
    unfold persisted, User_findOne_id in *. rewrite Hus.
    destruct (find _ (users db)) as [u|] eqn:Hu; [|discriminate].
    rewrite (find_app_l _ _ _ _ Hu). by rewrite Hp.
  - unfold addtocart, protected. destruct (fetchUser now header); [by apply Hkeep|].
    unfold addtocart_handler.
    destruct (User_findOne_id o db) as [userData|] eqn:Hu; [|by apply Hkeep].
    cbn [snd]. specialize (Hupd o itemId). rewrite Hu in Hupd. simpl in Hupd.
    destruct (falsy _); apply Hupd.
  - unfold removefromcart, protected.
    destruct (fetchUser now header); [by apply Hkeep|].
    unfold removefromcart_handler.
    destruct (User_findOne_id o db) as [userData|] eqn:Hu; [|by apply Hkeep].
    specialize (Hupd o itemId). rewrite Hu in Hupd. simpl in Hupd.
    destruct (_ || _); [by apply Hkeep|]. apply Hupd.
Qed.

Lemma update_first_restore (uid : ObjectId) (cart : gmap Z Z) (us : list User)
    (u : User) :
  find (fun v => bool_decide (u_id v = uid)) us = Some u ->
  update_first uid (u_cartData u) (update_first uid cart us) = us.
Proof.
  induction us as [|v us IH]; simpl; [discriminate|].
  case_bool_decide as Hv; simpl.
  - intros [= ->]. rewrite bool_decide_true by done. by destruct u.
  - intros Hf. rewrite bool_decide_false by done. by rewrite IH.
Qed.

Lemma findOneAndUpdate_restore (uid : ObjectId) (cart : gmap Z Z) (db : Db)
    (u : User) :
  User_findOne_id uid db = Some u ->
  User_findOneAndUpdate uid (u_cartData u) (User_findOneAndUpdate uid cart db)
  = db.
Proof.
  intros Hu. unfold User_findOneAndUpdate. cbn [products users].
  rewrite (update_first_restore _ _ _ _ Hu). by destruct db.
Qed.

Lemma findOne_id_updated (uid : ObjectId) (cart : gmap Z Z) (db : Db)
    (u : User) :
  User_findOne_id uid db = Some u ->
  User_findOne_id uid (User_findOneAndUpdate uid cart db)
  = Some (set_cartData cart u).
Proof. intros Hu. by apply update_first_found. Qed.

(** X5: removing an item right after adding it undoes the addition: when the
    cart holds a count [n >= 0] for the item, /addtocart followed by
    /removefromcart gives back the database as it was. *)
Theorem addtocart_then_removefromcart (now now' : Z)
    (header header' : option TokenString) (itemId n : Z) (user : ObjectId)
    (db : Db) :
  fetchUser now header = inr user ->
  fetchUser now' header' = inr user ->
  persisted user itemId db = Some n ->
  0 <= n ->
  removefromcart now' header' itemId (snd (addtocart now header itemId db))
  = (mkResponse 200 (BText "Removed one item"), db).
Proof.
  intros Hauth Hauth' Hp Hn. unfold addtocart, removefromcart.
  rewrite (protected_authenticated _ _ _ _ _ Hauth).
  rewrite (protected_authenticated _ _ _ _ _ Hauth').
  unfold persisted in Hp.
  destruct (User_findOne_id user db) as [u|] eqn:Hu; [|discriminate].
  simpl in Hp. unfold addtocart_handler. rewrite Hu, Hp. cbn [snd default id].
  assert (Hcart : (if falsy (Some n) then <[itemId := 1]> (u_cartData u)
                   else <[itemId := n + 1]> (u_cartData u))
                  = <[itemId := n + 1]> (u_cartData u)).
  { simpl. destruct (Z.eqb_spec n 0) as [->|]; done. }
  rewrite Hcart. unfold removefromcart_handler.
  rewrite (findOne_id_updated _ _ _ _ Hu). cbn [set_cartData u_cartData].
  rewrite lookup_insert_eq. cbn [falsy default id].
  rewrite (proj2 (Z.eqb_neq (n + 1) 0)) by lia.
  rewrite (proj2 (Z.leb_gt (n + 1) 0)) by lia. cbn [orb].
  replace (n + 1 - 1) with n by lia.
  rewrite insert_insert_eq, (insert_id _ _ _ Hp).
  by rewrite (findOneAndUpdate_restore _ _ _ _ Hu).
Qed.

(** X6: adding an item right after removing it undoes the removal: when the
    cart holds a count [n > 0] for the item, /removefromcart followed by
    /addtocart gives back the database as it was. *)
Theorem removefromcart_then_addtocart (now now' : Z)
    (header header' : option TokenString) (itemId n : Z) (user : ObjectId)
    (db : Db) :
  fetchUser now header = inr user ->
  fetchUser now' header' = inr user ->
  persisted user itemId db = Some n ->
  0 < n ->
  addtocart now' header' itemId (snd (removefromcart now header itemId db))
  = (mkResponse 200 (BText "Item added to the cart"), db).
Proof.
  intros Hauth Hauth' Hp Hn. unfold addtocart, removefromcart.
  rewrite (protected_authenticated _ _ _ _ _ Hauth).
  rewrite (protected_authenticated _ _ _ _ _ Hauth').
  unfold persisted in Hp.
  destruct (User_findOne_id user db) as [u|] eqn:Hu; [|discriminate].
  simpl in Hp. unfold removefromcart_handler. rewrite Hu, Hp.
  cbn [falsy default id].
  rewrite (proj2 (Z.eqb_neq n 0)) by lia.
  rewrite (proj2 (Z.leb_gt n 0)) by lia. cbn [orb snd].
  unfold addtocart_handler.
  rewrite (findOne_id_updated _ _ _ _ Hu). cbn [set_cartData u_cartData].
  rewrite lookup_insert_eq. cbn [default id].
  assert (Hcart : (if falsy (Some (n - 1))
                   then <[itemId := 1]> (<[itemId := n - 1]> (u_cartData u))
                   else <[itemId := n - 1 + 1]>
                          (<[itemId := n - 1]> (u_cartData u)))
                  = u_cartData u).
  { simpl. destruct (Z.eqb_spec (n - 1) 0) as [Hz|_].
    - replace n with 1 in Hp by lia.
      by rewrite insert_insert_eq, (insert_id _ _ _ Hp).
    - replace (n - 1 + 1) with n by lia.
      by rewrite insert_insert_eq, (insert_id _ _ _ Hp). }
  rewrite Hcart. by rewrite (findOneAndUpdate_restore _ _ _ _ Hu).
Qed.

Lemma addtocart_handler_exists (itemId : Z) (user : ObjectId) (db : Db) :
  is_Some (User_findOne_id user db) ->
  is_Some (User_findOne_id user (snd (addtocart_handler itemId user db))).
Proof.
  intros [u Hu]. unfold addtocart_handler. rewrite Hu. cbn [snd].
  rewrite (findOne_id_updated _ _ _ _ Hu). by eexists.
Qed.

(** X7: increments add up: after one or more /addtocart requests for the
    same item, all authenticated for the same existing account and handled
    one after the other, the persisted count is the count before (0 when
    the entry was absent) plus the number of requests. *)
Theorem addtocart_series_counts (itemId : Z) (user : ObjectId)
    (reqs : list (Z * option TokenString)) (db : Db) :
  Forall (fun req => fetchUser req.1 req.2 = inr user) reqs ->
  is_Some (User_findOne_id user db) ->
  reqs <> [] ->
  persisted user itemId (addtocart_series itemId reqs db)
  = Some (default 0 (persisted user itemId db) + Z.of_nat (length reqs)).
Proof.
  intros Hauth. revert db. unfold addtocart_series.
  induction Hauth as [|req reqs Hreq Hreqs IH]; intros db Huser Hne;
    [done|]. clear Hne. cbn [foldl length].
  unfold addtocart at 2. rewrite (protected_authenticated _ _ _ _ _ Hreq).
  pose proof (addtocart_handler_exists itemId user db Huser) as Huser'.
  assert (Hone : persisted user itemId (snd (addtocart_handler itemId user db))
                 = Some (default 0 (persisted user itemId db) + 1)).
  { destruct Huser as [u Hu].
    rewrite (addtocart_handler_entry _ _ _ _ Hu).
    unfold persisted. by rewrite Hu. }
  destruct reqs as [|req' reqs].
  - simpl. rewrite Hone. f_equal.
  - rewrite IH by done. rewrite Hone. cbn [default id length]. f_equal. lia.
Qed.

(** *** Authentication and login *)

(** X8: a protected route that gets no token (no [auth-token] header, or an
    empty one) answers 401 and leaves the database as it was. *)
Theorem protected_routes_need_token (now : Z) (header : option TokenString)
    (itemId : Z) (db : Db) :
  no_token header = true ->
  addtocart now header itemId db = (unauthenticated, db) /\
  removefromcart now header itemId db = (unauthenticated, db) /\
  getcart now header db = (unauthenticated, db).
Proof.
  intros Hno.
  assert (Hf : fetchUser now header = inl unauthenticated).
  { unfold fetchUser. destruct header; [|done]. by rewrite Hno. }
  unfold addtocart, removefromcart, getcart, protected. by rewrite Hf.
Qed.

(** X9: /login answers 404 "User not found" exactly when no account has the
    email, and whatever it answers it leaves the database as it was. *)
Theorem login_not_found (now : Z) (email password : string) (db : Db) :
  (fst (login now email password db)
   = mkResponse 404 (BJson (JFailure "User not found")) <->
   forall u, u ∈ users db -> u_email u <> email) /\
  snd (login now email password db) = db.
Proof.
  unfold login, User_findOne_email.
  destruct (find _ (users db)) as [user|] eqn:Hf.
  - apply find_some in Hf as [Hin Heq]. apply bool_decide_eq_true in Heq.
    apply list_elem_of_In in Hin. split.
    + split.
      * repeat case_match; discriminate.
      * intros Hall. by destruct (Hall user Hin).
    + repeat case_match; done.
  - split; [|done]. split; [|done]. intros _ u Hu Heq.
    apply list_elem_of_In in Hu.
    pose proof (find_none _ _ Hf u Hu) as Hb. simpl in Hb.
    by apply bool_decide_eq_false in Hb.
Qed.

(** X10: a wrong password is refused: after a successful signup, a login
    with the same email and any other password is answered 401 "Incorrect
    password" and changes nothing. *)
Theorem signup_then_wrong_password (now : Z) (salt : Salt) (oid : ObjectId)
    (name email password : string) (db : Db) (now' : Z) (attempt : string) :
  AES_reversible ->
  status (fst (signup now salt oid name email password db)) = 201 ->
  attempt <> password ->
  let db' := snd (signup now salt oid name email password db) in
  login now' email attempt db'
  = (mkResponse 401 (BJson (JFailure "Incorrect password")), db').
Proof.
  intros Hrev Hok Hne. cbn zeta.
  destruct (signup_created _ _ _ _ _ _ _ Hok) as [-> Hfresh]. cbn [snd].
  unfold login, User_findOne_email. cbn [users].
  rewrite find_app_r.
  - cbn [find u_email]. rewrite bool_decide_true by done.
    cbn [u_password]. unfold recover, obfuscate. rewrite Hrev.
    by rewrite bool_decide_true by congruence.
  - destruct (find _ (users db)) as [v|] eqn:Hf; [|done].
    apply find_some in Hf as [Hin Heq]. apply bool_decide_eq_true in Heq.
    apply list_elem_of_In in Hin. by destruct (Hfresh v Hin).
Qed.

(** X11: the token a successful signup returns works at once: within the
    hour, /addtocart with that token as header puts one unit of a seeded
    item (key 0 to 99) in the new account's cart. *)
Theorem signup_token_authorises_cart (now : Z) (salt : Salt) (oid : ObjectId)
    (name email password : string) (db : Db) (now' itemId : Z)
    (token : Token) (cart : gmap Z Z) :
  fst (signup now salt oid name email password db)
  = mkResponse 201 (BJson (JSuccessToken token cart)) ->
  now <= now' < now + 3600 ->
  0 <= itemId < 100 ->
  let db' := snd (signup now salt oid name email password db) in
  fst (addtocart now' (Some (Encoded token)) itemId db')
  = mkResponse 200 (BText "Item added to the cart") /\
  persisted oid itemId db' = Some 0 /\
  persisted oid itemId
    (snd (addtocart now' (Some (Encoded token)) itemId db')) = Some 1.
Proof.
  intros Hres Hnow Hitem. cbn zeta.
  assert (Hok : status (fst (signup now salt oid name email password db)) = 201)
    by (by rewrite Hres).
  destruct (signup_created _ _ _ _ _ _ _ Hok) as [Hout Hfresh].
  rewrite Hout in Hres |- *. cbn [fst snd] in *.
  injection Hres as <- <-.
  assert (Hauth : fetchUser now' (Some (Encoded (issue oid now))) = inr oid).
  { unfold fetchUser. cbn [no_token]. rewrite verify_issued.
    unfold one_hour. by rewrite (proj2 (Z.ltb_ge _ _)) by lia. }
  set (newUser := mkUser oid name email (obfuscate password salt)
                    seeded_cart now).
  assert (Hu : User_findOne_id oid (mkDb (products db) (users db ++ [newUser]))
               = Some newUser).
  { unfold User_findOne_id. cbn [users]. rewrite find_app_r.
    - cbn [find newUser u_id]. by rewrite bool_decide_true.
    - destruct (find _ (users db)) as [v|] eqn:Hf; [|done].
      apply find_some in Hf as [Hin Heq]. apply bool_decide_eq_true in Heq.
      apply list_elem_of_In in Hin. by destruct (Hfresh v Hin). }
  assert (Hseed : persisted oid itemId
                    (mkDb (products db) (users db ++ [newUser])) = Some 0).
  { unfold persisted. rewrite Hu. cbn [mbind option_bind newUser u_cartData].
    rewrite seeded_cart_lookup. by rewrite bool_decide_true by lia. }
  unfold addtocart. rewrite (protected_authenticated _ _ _ _ _ Hauth).
  split_and!.
  - unfold addtocart_handler. by rewrite Hu.
  - done.
  - rewrite (addtocart_handler_entry _ _ _ _ Hu). cbn [newUser u_cartData].
    rewrite seeded_cart_lookup. by rewrite bool_decide_true by lia.
Qed.

(** *** More on the catalog *)

Lemma reachable_products (P : list Product -> Prop) :
  P [] ->
  (forall now b db, P (products db) -> P (products (snd (addproduct now b db)))) ->
  (forall pid ps, P ps -> P (delete_first pid ps)) ->
  forall db, reachable db -> P (products db).
Proof.
  intros Hnil Hadd Hdel db [rs ->]. unfold run.
  assert (Hinit : P (products empty_db)) by done.
  revert Hinit. generalize empty_db.
  induction rs as [|r rs IH]; intros d Hd; cbn [foldl]; [done|].
  apply IH. destruct (catalog_write r) eqn:Hw; [|by rewrite handle_products].
  destruct r; try discriminate; cbn [handle]; [by apply Hadd|].
  by apply Hdel.
Qed.

Lemma ascending_NoDup (ps : list Product) :
  ascending ps -> NoDup (map p_id ps).
Proof.
  unfold ascending. induction ps as [|p ps IH]; simpl; [constructor|].
  rewrite StronglySorted_cons. intros [Hall Hs]. constructor; [|auto].
  intros Hin. apply list_elem_of_In, in_map_iff in Hin as (q & Heq & Hq).
  rewrite Forall_forall in Hall. apply list_elem_of_In in Hq.
  specialize (Hall q Hq). unfold by_id in Hall. lia.
Qed.

Lemma next_id_positive (ps : list Product) :
  Forall (fun p => 1 <= p_id p) ps -> 1 <= next_id ps.
Proof.
  intros Hall. unfold next_id. destruct (last ps) as [p|] eqn:Hl; [|lia].
  apply last_Some_elem_of in Hl. rewrite Forall_forall in Hall.
  specialize (Hall p Hl). simpl in Hall. lia.
Qed.

Lemma addproduct_products (now : Z) (b : ProductBody) (db : Db) :
  status (fst (addproduct now b db)) = 200 ->
  exists p,
    new_Product (next_id (products db)) now b = Some p /\
    p_id p = next_id (products db) /\
    addproduct now b db
    = (mkResponse 200 (BJson (JSuccessName (b_name b))),
       mkDb (products db ++ [p]) (users db)).
Proof.
  unfold addproduct.
  destruct (new_Product _ now b) as [p|] eqn:Hp;
    [|cbn [fst status]; discriminate].
  intros _. exists p. split_and!; [done| |done].
  unfold new_Product in Hp. repeat case_match; try discriminate.
  by injection Hp as <-.
Qed.

(** X12: product ids identify products: in every state the server reaches
    from the empty database the ids of the products are pairwise distinct
    and at least 1. *)
Theorem product_ids_unique (db : Db) :
  reachable db ->
  NoDup (map p_id (products db)) /\
  forall p, p ∈ products db -> 1 <= p_id p.
Proof.
  intros Hr. split.
  - by apply ascending_NoDup, reachable_ascending.
  - rewrite <- Forall_forall. revert db Hr. apply reachable_products.
    + constructor.
    + intros now b db Hall. unfold addproduct.
      destruct (new_Product _ now b) as [p|] eqn:Hp; [|done].
      cbn [snd Product_save products]. apply Forall_app. split; [done|].
      constructor; [|constructor].
      assert (p_id p = next_id (products db)) as ->.
      { unfold new_Product in Hp. repeat case_match; try discriminate.
        by injection Hp as <-. }
      by apply next_id_positive.
    + intros pid ps. apply delete_first_Forall.
Qed.

Lemma filter_all {A : Type} (P : A -> Prop) `{!forall x, Decision (P x)}
    (l : list A) :
  Forall P l -> filter P l = l.
Proof.
  induction 1 as [|x l Hx Hl IH]; [done|].
  by rewrite filter_cons_True, IH.
Qed.

Lemma delete_first_filter (pid : Z) (ps : list Product) :
  ascending ps ->
  delete_first pid ps = filter (fun p => p_id p <> pid) ps.
Proof.
  unfold ascending. induction ps as [|p ps IH]; simpl; [done|].
  rewrite StronglySorted_cons. intros [Hall Hs]. case_bool_decide as Hp.
  - rewrite filter_cons_False by (intros H; by apply H).
    symmetry. apply filter_all. eapply Forall_impl; [exact Hall|].
    intros q Hq. unfold by_id in Hq. simpl. lia.
  - rewrite filter_cons_True by done. by rewrite IH.
Qed.

(** X13: in every state the server reaches from the empty database,
    /removeproduct removes exactly the product with the requested id: the
    other products stay, in their order, no product with that id is left,
    and no account or cart changes. *)
Theorem removeproduct_removes_exactly (productId : Z) (db : Db) :
  reachable db ->
  let db' := snd (removeproduct productId db) in
  products db' = filter (fun p => p_id p <> productId) (products db) /\
  (forall p, p ∈ products db' <-> p ∈ products db /\ p_id p <> productId) /\
  users db' = users db.
Proof.
  intros Hr%reachable_ascending. cbn zeta.
  unfold removeproduct, Product_findOneAndDelete. cbn [snd products users].
  rewrite (delete_first_filter _ _ Hr). split_and!; [done| |done].
  intros p. rewrite list_elem_of_filter. tauto.
Qed.

Lemma delete_first_last (ps : list Product) (p : Product) :
  (forall q, q ∈ ps -> p_id q <> p_id p) ->
  delete_first (p_id p) (ps ++ [p]) = ps.
Proof.
  induction ps as [|q ps IH]; simpl; intros Hall.
  - by rewrite bool_decide_true.
  - rewrite bool_decide_false by (apply Hall; apply list_elem_of_here).
    rewrite IH; [done|]. intros x Hx. apply Hall.
    by apply list_elem_of_further.
Qed.

(** X14: ids are reused: when the product added last is removed, the next
    product added gets the id the removed one had. *)
Theorem removed_last_id_is_reused (now now' : Z) (b b' : ProductBody)
    (db : Db) :
  reachable db ->
  status (fst (addproduct now b db)) = 200 ->
  let db1 := snd (addproduct now b db) in
  let db2 := snd (removeproduct (next_id (products db)) db1) in
  status (fst (addproduct now' b' db2)) = 200 ->
  exists p p',
    products db1 = (products db ++ [p])%list /\
    db2 = db /\
    products (snd (addproduct now' b' db2)) = (products db ++ [p'])%list /\
    p_id p' = p_id p.
Proof.
  intros Hr%reachable_ascending Hok. cbn zeta.
  destruct (addproduct_products _ _ _ Hok) as (p & _ & Hid & ->).
  cbn [snd]. unfold removeproduct, Product_findOneAndDelete.
  cbn [snd products users]. rewrite <- Hid.
  rewrite delete_first_last.
  - replace (mkDb (products db) (users db)) with db by (by destruct db).
    intros Hok'. destruct (addproduct_products _ _ _ Hok') as (p' & _ & Hid' & ->).
    exists p, p'. cbn [snd products]. split_and!; [done..|]. congruence.
  - intros q Hq. pose proof (next_id_above _ Hr q Hq). lia.
Qed.

Lemma filter_ascending (P : Product -> Prop) `{!forall p, Decision (P p)}
    (ps : list Product) :
  ascending ps -> ascending (filter P ps).
Proof.
  unfold ascending. induction ps as [|p ps IH]; [done|].
  rewrite StronglySorted_cons. intros [Hall Hs].
  destruct (decide (P p)).
  - rewrite filter_cons_True by done. apply StronglySorted_cons.
    split; [|auto]. rewrite Forall_forall in Hall |- *.
    intros q Hq%list_elem_of_filter. apply Hall, Hq.
  - rewrite filter_cons_False by done. auto.
Qed.

(** X15: /newcollection returns the last 8 products in stored order, all of
    them when the catalog holds fewer than 8, and changes nothing; in every
    state the server reaches from the empty database these are the products
    with the highest ids. *)
Theorem newcollection_is_most_recent (db : Db) :
  reachable db ->
  exists older recent,
    products db = (older ++ recent)%list /\
    newcollection db = (mkResponse 200 (BJson (JProducts recent)), db) /\
    length recent = Nat.min 8 (length (products db)) /\
    forall p q, p ∈ older -> q ∈ recent -> p_id p < p_id q.
Proof.
  intros Hr%reachable_ascending.
  exists (take (length (products db) - 8) (products db)),
         (drop (length (products db) - 8) (products db)).
  split_and!.
  - by rewrite take_drop.
  - done.
  - rewrite length_drop. lia.
  - rewrite <- (take_drop (length (products db) - 8) (products db)) in Hr.
    intros p q Hp Hq.
    exact (StronglySorted_app_1_elem_of _ _ _ _ _ Hr Hp Hq).
Qed.

(** X16: /popularinwomen returns at most 4 products, all of category
    "women" and all in the catalog, and changes nothing; in every state the
    server reaches from the empty database a "women" product it leaves out
    has a higher id than each of the 4 it returns. *)
Theorem popularinwomen_is_first_four (db : Db) :
  reachable db ->
  exists shown,
    popularinwomen db = (mkResponse 200 (BJson (JProducts shown)), db) /\
    (length shown <= 4)%nat /\
    (forall p, p ∈ shown -> p ∈ products db /\ p_category p = "women") /\
    (forall q, q ∈ products db -> p_category q = "women" -> q ∉ shown ->
       length shown = 4%nat /\ forall p, p ∈ shown -> p_id p < p_id q).
Proof.
  intros Hr%reachable_ascending.
  set (women := filter (fun p => p_category p = "women") (products db)).
  exists (take 4 women). split_and!.
  - done.
  - rewrite length_take. lia.
  - intros p Hp%subseteq_take. apply list_elem_of_filter in Hp. tauto.
  - intros q Hq Hcat Hout.
    assert (Hw : q ∈ women) by (by apply list_elem_of_filter).
    rewrite <- (take_drop 4 women) in Hw.
    apply elem_of_app in Hw as [Hw|Hw]; [done|].
    assert (Hs : ascending (take 4 women ++ drop 4 women)).
    { rewrite take_drop. by apply filter_ascending. }
    split.
    + apply length_take_le.
      destruct (decide (4 <= length women)%nat) as [|Hshort]; [done|].
      rewrite drop_ge in Hw by lia. by apply elem_of_nil in Hw.
    + intros p Hp.
      exact (StronglySorted_app_1_elem_of _ _ _ _ _ Hs Hp Hw).
Qed.



(** *** /getcart *)

(** X18: /getcart shows what /addtocart did: when /getcart returns [cart]
    for an account, then after an /addtocart of [itemId] for that account it
    returns [cart] with the entry of [itemId] set to its count plus 1 (to 1
    when it was absent), every other entry as it was. *)
Theorem getcart_after_addtocart (now now' now'' : Z)
    (header header' header'' : option TokenString) (itemId : Z)
    (user : ObjectId) (cart : gmap Z Z) (db : Db) :
  fetchUser now header = inr user ->
  fetchUser now' header' = inr user ->
  fetchUser now'' header'' = inr user ->
  getcart now header db = (mkResponse 200 (BJson (JCart cart)), db) ->
  let db' := snd (addtocart now' header' itemId db) in
  getcart now'' header'' db'
  = (mkResponse 200
       (BJson (JCart (<[itemId := default 0 (cart !! itemId) + 1]> cart))),
     db').
Proof.
  intros Hauth Hauth' Hauth'' Hget. cbn zeta.
  unfold getcart, addtocart in *.
  rewrite (protected_authenticated _ _ _ _ _ Hauth) in Hget.
  rewrite (protected_authenticated _ _ _ _ _ Hauth').
  rewrite (protected_authenticated _ _ _ _ _ Hauth'').
  unfold getcart_handler in Hget.
  destruct (User_findOne_id user db) as [u|] eqn:Hu; [|discriminate].
  injection Hget as <-.
  unfold addtocart_handler. rewrite Hu. cbn [snd].
  unfold getcart_handler. rewrite (findOne_id_updated _ _ _ _ Hu).
  cbn [set_cartData u_cartData]. do 3 f_equal.
  destruct (u_cartData u !! itemId) as [n|]; cbn [falsy default id]; [|done].
  by destruct (Z.eqb_spec n 0) as [->|].
Qed.

(** X19: a valid token whose account is not in the database: /addtocart and
    /removefromcart answer 404 "User not found", /getcart answers 500
    "Internal server error", and none of them changes the database. *)
Theorem cart_routes_unknown_account (now : Z) (header : option TokenString)
    (itemId : Z) (user : ObjectId) (db : Db) :
  fetchUser now header = inr user ->
  (forall u, u ∈ users db -> u_id u <> user) ->
  addtocart now header itemId db
  = (mkResponse 404 (BText "User not found"), db) /\
  removefromcart now header itemId db
  = (mkResponse 404 (BText "User not found"), db) /\
  getcart now header db
  = (mkResponse 500 (BText "Internal server error"), db).
Proof.
  intros Hauth Hnone.
  assert (Hu : User_findOne_id user db = None).
  { unfold User_findOne_id.
    destruct (find _ (users db)) as [v|] eqn:Hf; [|done].
    apply find_some in Hf as [Hin Heq]. apply bool_decide_eq_true in Heq.
    apply list_elem_of_In in Hin. by destruct (Hnone v Hin). }
  unfold addtocart, removefromcart, getcart.
  rewrite !(protected_authenticated _ _ _ _ _ Hauth).
  unfold addtocart_handler, removefromcart_handler, getcart_handler.
  by rewrite Hu.
Qed.

End Server.

(** ** Closed examples *)

Lemma Standin_strip_append (key message : string) :
  Standin.strip key (key +:+ message) = Some message.
Proof.
  induction key as [|a key IH]; simpl; [done|].
  by rewrite bool_decide_true.
Qed.

Lemma Standin_reversible : AES_reversible Standin.encrypt Standin.decrypt.
Proof. intros plaintext key salt. apply Standin_strip_append. Qed.

Lemma token_verifies_until_expiry_witness :
  fetchUser Standin.sign 1000 (Some (Encoded (issue Standin.sign 7%N 1000)))
  = inr 7%N /\
  fetchUser Standin.sign 4601 (Some (Encoded (issue Standin.sign 7%N 1000)))
  = inl unauthenticated.
Proof.
  destruct (token_verifies_until_expiry Standin.sign 7%N 1000 1000)
    as (_ & Hfresh & _).
  destruct (token_verifies_until_expiry Standin.sign 7%N 1000 4601)
    as (_ & _ & Hlate).
  split.
  - refine (proj2 (Hfresh _)). lia.
  - refine (proj1 (proj2 (Hlate _))). lia.
Defined.

Lemma addtocart_increments_witness :
  let header := Some (Encoded (issue Standin.sign 7%N 1000)) in
  fetchUser Standin.sign 1200 header = inr 7%N /\
  persisted 7%N 3 Sample.db = Some 2 /\
  persisted 7%N 3 (snd (addtocart Standin.sign 1200 header 3 Sample.db))
  = Some (default 0 (persisted 7%N 3 Sample.db) + 1) /\
  persisted 7%N 8 Sample.db = None /\
  persisted 7%N 8 (snd (addtocart Standin.sign 1200 header 8 Sample.db))
  = Some 1.
Proof.
  cbn zeta.
  assert (Hauth : fetchUser Standin.sign 1200
                    (Some (Encoded (issue Standin.sign 7%N 1000))) = inr 7%N)
    by (vm_compute; reflexivity).
  assert (Huser : is_Some (User_findOne_id 7%N Sample.db))
    by (eexists; vm_compute; reflexivity).
  assert (Habsent : persisted 7%N 8 Sample.db = None)
    by (vm_compute; reflexivity).
  destruct (addtocart_increments Standin.sign 1200 _ 3 7%N Sample.db Hauth Huser)
    as (_ & Hthree & _).
  destruct (addtocart_increments Standin.sign 1200 _ 8 7%N Sample.db Hauth Huser)
    as (_ & _ & Height).
  split_and!; [exact Hauth|vm_compute; reflexivity|exact Hthree|exact Habsent|].
  exact (Height Habsent).
Defined.

Lemma removefromcart_decrements_witness :
  let header := Some (Encoded (issue Standin.sign 7%N 1000)) in
  (fst (removefromcart Standin.sign 1200 header 5 Sample.db)
   = item_not_in_cart <->
   persisted 7%N 5 Sample.db = None \/
   exists n, persisted 7%N 5 Sample.db = Some n /\ n <= 0) /\
  persisted 7%N 5 Sample.db = Some 0 /\
  snd (removefromcart Standin.sign 1200 header 5 Sample.db) = Sample.db /\
  persisted 7%N 3 (snd (removefromcart Standin.sign 1200 header 3 Sample.db))
  = Some 1.
Proof.
  cbn zeta.
  assert (Hauth : fetchUser Standin.sign 1200
                    (Some (Encoded (issue Standin.sign 7%N 1000))) = inr 7%N)
    by (vm_compute; reflexivity).
  assert (Huser : is_Some (User_findOne_id 7%N Sample.db))
    by (eexists; vm_compute; reflexivity).
  destruct (removefromcart_decrements Standin.sign 1200 _ 5 7%N Sample.db
              Hauth Huser) as (Hiff & Hsame & _).
  destruct (removefromcart_decrements Standin.sign 1200 _ 3 7%N Sample.db
              Hauth Huser) as (_ & _ & Hdec).
  split_and!; [exact Hiff|vm_compute; reflexivity| |].
  - apply Hsame. vm_compute. reflexivity.
  - destruct Hdec as (_ & n & Hn & Hout); [vm_compute; discriminate|].
    rewrite Hout. f_equal.
    assert (Some n = Some 2) as [= ->]
      by (rewrite <- Hn; vm_compute; reflexivity).
    reflexivity.
Defined.

Lemma cart_mutators_frame_witness :
  let header := Some (Encoded (issue Standin.sign 7%N 1000)) in
  persisted 7%N 5 (snd (addtocart Standin.sign 1200 header 3 Sample.db))
  = persisted 7%N 5 Sample.db /\
  persisted 7%N 5 (snd (removefromcart Standin.sign 1200 header 3 Sample.db))
  = persisted 7%N 5 Sample.db.
Proof.
  apply (cart_mutators_frame Standin.sign 1200 _ 3 5 7%N Sample.db). lia.
Defined.

Lemma signup_email_taken_witness :
  signup Standin.encrypt Standin.sign 2000 1%N 8%N "Asha again"
    "asha@example.com" "other" Sample.db
  = (mkResponse 400 (BJson (JFailure "Email is already registered!")),
     Sample.db).
Proof.
  apply signup_email_taken. exists Sample.asha.
  split; [apply list_elem_of_here|reflexivity].
Defined.

Lemma signup_then_login_witness :
  let out := signup Standin.encrypt Standin.sign 1000 0%N 7%N "Asha"
               "asha@example.com" "hunter2" empty_db in
  status (fst out) = 201 /\
  login Standin.decrypt Standin.sign 1001 "asha@example.com" "hunter2" (snd out)
  = (mkResponse 200
       (BJson (JSuccessToken (issue Standin.sign 7%N 1001) seeded_cart)),
     snd out).
Proof.
  cbn zeta.
  assert (Hok : status (fst (signup Standin.encrypt Standin.sign 1000 0%N 7%N
                               "Asha" "asha@example.com" "hunter2" empty_db))
                = 201) by (vm_compute; reflexivity).
  destruct (signup_then_login Standin.encrypt Standin.decrypt Standin.sign
              1000 0%N 7%N "Asha" "asha@example.com" "hunter2" empty_db 1001
              Standin_reversible Hok) as (_ & _ & _ & Hlogin).
  split; [exact Hok|exact Hlogin].
Defined.

Lemma addproduct_assigns_max_plus_one_witness :
  let db := run Standin.encrypt Standin.decrypt Standin.sign
              Sample.catalog_requests empty_db in
  map p_id (products db) = [1; 3] /\
  exists p,
    products (snd (addproduct 13 Sample.shirt db)) = (products db ++ [p])%list /\
    p_id p = match max_id (products db) with Some m => m + 1 | None => 1 end /\
    forall q, q ∈ products db -> p_id q < p_id p.
Proof.
  cbn zeta. split; [vm_compute; reflexivity|].
  apply (addproduct_assigns_max_plus_one Standin.encrypt Standin.decrypt
           Standin.sign).
  - exists Sample.catalog_requests. reflexivity.
  - vm_compute. reflexivity.
Defined.

Lemma removeproduct_reports_success_witness :
  let db := run Standin.encrypt Standin.decrypt Standin.sign
              Sample.catalog_requests empty_db in
  map p_id (products db) = [1; 3] /\
  removeproduct 2 db = (mkResponse 200 (BJson JSuccess), db) /\
  fst (removeproduct 3 db) = mkResponse 200 (BJson JSuccess) /\
  map p_id (products (snd (removeproduct 3 db))) = [1].
Proof.
  cbn zeta.
  destruct (removeproduct_reports_success 2
              (run Standin.encrypt Standin.decrypt Standin.sign
                 Sample.catalog_requests empty_db)) as (Hres & Hnoop & Hsame).
  split_and!; [vm_compute; reflexivity| |apply Hsame|vm_compute; reflexivity].
  rewrite (surjective_pairing (removeproduct 2 _)), Hres, Hnoop; [done|].
  intros p Hp. apply list_elem_of_In in Hp. vm_compute in Hp.
  destruct Hp as [<-|[<-|[]]]; vm_compute; discriminate.
Defined.

(** ** The secrets of the configuration *)

(** C3 (evaluation): with a configuration whose [JWT_SECRET] and
    [ENCRYPTION_SECRET] are set, /signup still encrypts the password under
    the literal "Secret key" and signs the token with the literal "secret",
    and the middleware rejects a token signed with the configured secret:
    the handlers never read [jwtSecret] or [encryptionSecret]. *)
Theorem configured_secrets_unused :
  let out := signup Standin.encrypt Standin.sign 1000 0%N 7%N "Asha"
               "asha@example.com" "hunter2" empty_db in
  encryptionSecret Sample.env = Some "enc-from-dotenv" /\
  jwtSecret Sample.env = Some "jwt-from-dotenv" /\
  (exists u token cart,
     snd out = mkDb [] [u] /\
     fst out = mkResponse 201 (BJson (JSuccessToken token cart)) /\
     u_password u = Standin.encrypt "hunter2" "Secret key" 0%N /\
     u_password u <> Standin.encrypt "hunter2" "enc-from-dotenv" 0%N /\
     signature token = Standin.sign "secret" (claims token) /\
     signature token <> Standin.sign "jwt-from-dotenv" (claims token)) /\
  fetchUser Standin.sign 1000
    (Some (Encoded (jwt_sign Standin.sign 7%N "jwt-from-dotenv" one_hour 1000)))
  = inl unauthenticated.
Proof.
  cbn zeta. split_and!; [reflexivity|reflexivity| |vm_compute; reflexivity].
  eexists _, _, _. split_and!; [reflexivity|reflexivity|reflexivity| |
                                 reflexivity|]; vm_compute; discriminate.
Qed.

(** ** Closed examples for the further properties *)

Lemma carts_never_negative_witness :
  let db := run Standin.encrypt Standin.decrypt Standin.sign
              Sample.session empty_db in
  exists u, head (users db) = Some u /\ u_cartData u !! 3 = Some 1 /\ 0 <= 1.
Proof.
  cbn zeta. eexists. split; [vm_compute; reflexivity|].
  split; [vm_compute; reflexivity|].
  eapply (carts_never_negative Standin.encrypt Standin.decrypt Standin.sign
            _ _ 3 1).
  - exists Sample.session. reflexivity.
  - apply list_elem_of_In. vm_compute. left. reflexivity.
  - vm_compute. reflexivity.
Defined.

Lemma accounts_unique_witness :
  let db := run Standin.encrypt Standin.decrypt Standin.sign
              Sample.session empty_db in
  map u_email (users db) = ["asha@example.com"; "bo@example.com"] /\
  NoDup (map u_email (users db)) /\ NoDup (map u_id (users db)).
Proof.
  cbn zeta. split; [vm_compute; reflexivity|].
  apply (accounts_unique Standin.encrypt Standin.decrypt Standin.sign).
  exists Sample.session. reflexivity.
Defined.

Lemma cart_entries_never_removed_witness :
  persisted 7%N 3 Sample.db = Some 2 /\
  is_Some (persisted 7%N 3
             (snd (handle Standin.encrypt Standin.decrypt Standin.sign
                     (RemoveFromCart 1200 Sample.header 3) Sample.db))).
Proof.
  assert (H : persisted 7%N 3 Sample.db = Some 2) by (vm_compute; reflexivity).
  split; [exact H|].
  exact (cart_entries_never_removed Standin.encrypt Standin.decrypt
           Standin.sign _ _ _ _ _ H).
Defined.

Lemma addtocart_then_removefromcart_witness :
  persisted 7%N 5 Sample.db = Some 0 /\
  removefromcart Standin.sign 1300 Sample.header 5
    (snd (addtocart Standin.sign 1200 Sample.header 5 Sample.db))
  = (mkResponse 200 (BText "Removed one item"), Sample.db).
Proof.
  assert (H : persisted 7%N 5 Sample.db = Some 0) by (vm_compute; reflexivity).
  split; [exact H|].
  apply (addtocart_then_removefromcart Standin.sign 1200 1300 _ _ 5 0 7%N);
    [vm_compute; reflexivity|vm_compute; reflexivity|exact H|lia].
Defined.

Lemma removefromcart_then_addtocart_witness :
  persisted 7%N 3 Sample.db = Some 2 /\
  addtocart Standin.sign 1300 Sample.header 3
    (snd (removefromcart Standin.sign 1200 Sample.header 3 Sample.db))
  = (mkResponse 200 (BText "Item added to the cart"), Sample.db).
Proof.
  assert (H : persisted 7%N 3 Sample.db = Some 2) by (vm_compute; reflexivity).
  split; [exact H|].
  apply (removefromcart_then_addtocart Standin.sign 1200 1300 _ _ 3 2 7%N);
    [vm_compute; reflexivity|vm_compute; reflexivity|exact H|lia].
Defined.

Lemma addtocart_series_counts_witness :
  let reqs := [(1200, Sample.header); (1300, Sample.header);
               (1400, Sample.header)] in
  persisted 7%N 8 Sample.db = None /\
  persisted 7%N 8 (addtocart_series Standin.sign 8 reqs Sample.db) = Some 3.
Proof.
  cbn zeta. split; [vm_compute; reflexivity|].
  rewrite (addtocart_series_counts Standin.sign 8 7%N).
  - vm_compute. reflexivity.
  - repeat constructor.
  - eexists. vm_compute. reflexivity.
  - discriminate.
Defined.

Lemma protected_routes_need_token_witness :
  addtocart Standin.sign 1200 None 3 Sample.db = (unauthenticated, Sample.db) /\
  removefromcart Standin.sign 1200 None 3 Sample.db
  = (unauthenticated, Sample.db) /\
  getcart Standin.sign 1200 None Sample.db = (unauthenticated, Sample.db).
Proof.
  apply (protected_routes_need_token Standin.sign 1200 None 3 Sample.db).
  reflexivity.
Defined.

Lemma signup_then_wrong_password_witness :
  let db' := snd (signup Standin.encrypt Standin.sign 1000 0%N 7%N "Asha"
                    "asha@example.com" "hunter2" empty_db) in
  login Standin.decrypt Standin.sign 1001 "asha@example.com" "hunter3" db'
  = (mkResponse 401 (BJson (JFailure "Incorrect password")), db').
Proof.
  apply (signup_then_wrong_password Standin.encrypt Standin.decrypt
           Standin.sign).
  - exact Standin_reversible.
  - vm_compute. reflexivity.
  - discriminate.
Defined.

Lemma signup_token_authorises_cart_witness :
  let db' := snd (signup Standin.encrypt Standin.sign 1000 0%N 7%N "Asha"
                    "asha@example.com" "hunter2" empty_db) in
  persisted 7%N 42 db' = Some 0 /\
  persisted 7%N 42 (snd (addtocart Standin.sign 2000 Sample.header 42 db'))
  = Some 1.
Proof.
  cbn zeta.
  destruct (signup_token_authorises_cart Standin.encrypt Standin.sign
              1000 0%N 7%N "Asha" "asha@example.com" "hunter2" empty_db
              2000 42 Sample.token seeded_cart) as (_ & Hbefore & Hafter);
    [vm_compute; reflexivity|lia|lia|].
  split; [exact Hbefore|exact Hafter].
Defined.

Lemma getcart_after_addtocart_witness :
  getcart Standin.sign 1200 Sample.header Sample.db
  = (mkResponse 200 (BJson (JCart Sample.cart)), Sample.db) /\
  fst (getcart Standin.sign 1400 Sample.header
         (snd (addtocart Standin.sign 1300 Sample.header 3 Sample.db)))
  = mkResponse 200 (BJson (JCart (<[3 := 3]> Sample.cart))).
Proof.
  assert (H : getcart Standin.sign 1200 Sample.header Sample.db
              = (mkResponse 200 (BJson (JCart Sample.cart)), Sample.db))
    by (vm_compute; reflexivity).
  split; [exact H|].
  rewrite (getcart_after_addtocart Standin.sign 1200 1300 1400 Sample.header
             Sample.header Sample.header 3 7%N Sample.cart Sample.db);
    [|vm_compute; reflexivity..|exact H].
  vm_compute. reflexivity.
Defined.

Lemma cart_routes_unknown_account_witness :
  addtocart Standin.sign 1200 Sample.header 3 empty_db
  = (mkResponse 404 (BText "User not found"), empty_db) /\
  removefromcart Standin.sign 1200 Sample.header 3 empty_db
  = (mkResponse 404 (BText "User not found"), empty_db) /\
  getcart Standin.sign 1200 Sample.header empty_db
  = (mkResponse 500 (BText "Internal server error"), empty_db).
Proof.
  apply (cart_routes_unknown_account Standin.sign 1200 _ 3 7%N).
  - vm_compute. reflexivity.
  - intros u Hu. by apply elem_of_nil in Hu.
Defined.

Lemma product_ids_unique_witness :
  let db := run Standin.encrypt Standin.decrypt Standin.sign
              Sample.catalog_requests empty_db in
  map p_id (products db) = [1; 3] /\
  NoDup (map p_id (products db)) /\
  forall p, p ∈ products db -> 1 <= p_id p.
Proof.
  cbn zeta. split; [vm_compute; reflexivity|].
  apply (product_ids_unique Standin.encrypt Standin.decrypt Standin.sign).
  exists Sample.catalog_requests. reflexivity.
Defined.

Lemma removeproduct_removes_exactly_witness :
  let db := run Standin.encrypt Standin.decrypt Standin.sign
              Sample.boutique empty_db in
  map p_id (products (snd (removeproduct 4 db))) = [1; 2; 3; 5; 6; 7; 8; 9; 10] /\
  products (snd (removeproduct 4 db))
  = filter (fun p => p_id p <> 4) (products db) /\
  users (snd (removeproduct 4 db)) = users db.
Proof.
  cbn zeta. split; [vm_compute; reflexivity|].
  destruct (removeproduct_removes_exactly Standin.encrypt Standin.decrypt
              Standin.sign 4
              (run Standin.encrypt Standin.decrypt Standin.sign
                 Sample.boutique empty_db)) as (Hfilter & _ & Husers).
  - exists Sample.boutique. reflexivity.
  - split; [exact Hfilter|exact Husers].
Defined.

Lemma removed_last_id_is_reused_witness :
  let db := run Standin.encrypt Standin.decrypt Standin.sign
              Sample.catalog_requests empty_db in
  let db1 := snd (addproduct 20 Sample.shirt db) in
  let db2 := snd (removeproduct (next_id (products db)) db1) in
  map p_id (products db1) = [1; 3; 4] /\
  map p_id (products (snd (addproduct 21 Sample.blouse db2))) = [1; 3; 4] /\
  exists p p',
    products db1 = (products db ++ [p])%list /\
    db2 = db /\
    products (snd (addproduct 21 Sample.blouse db2))
    = (products db ++ [p'])%list /\
    p_id p' = p_id p.
Proof.
  cbn zeta. split; [vm_compute; reflexivity|].
  split; [vm_compute; reflexivity|].
  apply (removed_last_id_is_reused Standin.encrypt Standin.decrypt
           Standin.sign).
  - exists Sample.catalog_requests. reflexivity.
  - vm_compute. reflexivity.
  - vm_compute. reflexivity.
Defined.

Lemma newcollection_is_most_recent_witness :
  let db := run Standin.encrypt Standin.decrypt Standin.sign
              Sample.boutique empty_db in
  (exists recent,
     fst (newcollection db) = mkResponse 200 (BJson (JProducts recent)) /\
     map p_id recent = [3; 4; 5; 6; 7; 8; 9; 10]) /\
  exists older recent,
    products db = (older ++ recent)%list /\
    newcollection db = (mkResponse 200 (BJson (JProducts recent)), db) /\
    length recent = Nat.min 8 (length (products db)) /\
    forall p q, p ∈ older -> q ∈ recent -> p_id p < p_id q.
Proof.
  cbn zeta. split.
  - eexists. split; vm_compute; reflexivity.
  - apply (newcollection_is_most_recent Standin.encrypt Standin.decrypt
             Standin.sign).
    exists Sample.boutique. reflexivity.
Defined.

Lemma popularinwomen_is_first_four_witness :
  let db := run Standin.encrypt Standin.decrypt Standin.sign
              Sample.boutique empty_db in
  (exists shown,
     fst (popularinwomen db) = mkResponse 200 (BJson (JProducts shown)) /\
     map p_id shown = [1; 3; 4; 6]) /\
  exists shown,
    popularinwomen db = (mkResponse 200 (BJson (JProducts shown)), db) /\
    (length shown <= 4)%nat /\
    (forall p, p ∈ shown -> p ∈ products db /\ p_category p = "women") /\
    (forall q, q ∈ products db -> p_category q = "women" -> q ∉ shown ->
       length shown = 4%nat /\ forall p, p ∈ shown -> p_id p < p_id q).
Proof.
  cbn zeta. split.
  - eexists. split; vm_compute; reflexivity.
  - apply (popularinwomen_is_first_four Standin.encrypt Standin.decrypt
             Standin.sign).
    exists Sample.boutique. reflexivity.
Defined.

